(** * awx/sso/backends.py: authentication backends and LDAP group synchronisation

    A shallow embedding of [awx.sso.backends]: the four license-gated
    authentication backends (LDAP, RADIUS, TACACS+, SAML), the LDAP settings
    object with its network-timeout default, the settings cache of the LDAP
    backend, and the [populate_user] receiver that mirrors LDAP group
    membership into organization and team roles.

    Python code runs in a small state-and-exception monad over a [world]
    (the rows the code reads and writes, and a trace of the observable
    calls it makes). Third-party base classes and protocol clients are
    parameters. *)

From stdpp Require Import gmap strings list fin_maps.
From Stdlib Require Import ZArith.

Local Open Scope Z_scope.
Local Open Scope string_scope.
Set Warnings "-clear-no-such-hyp".

(** ** Python values found in the settings *)

#[warnings="-register-all"]
Inductive pyval : Type :=
| PyNone
| PyBool (b : bool)
| PyInt (n : Z)
| PyStr (s : string)
| PyList (l : list pyval).

(** [bool(v)], the truth value [not v] negates. *)
Definition truthy (v : pyval) : bool :=
  match v with
  | PyNone => false
  | PyBool b => b
  | PyInt n => negb (Z.eqb n 0)
  | PyStr s => negb (String.eqb s "")
  | PyList l => match l with [] => false | _ :: _ => true end
  end.

(** [v is None] and [v is True]: identity with the two singletons. *)
Definition is_None (v : pyval) : bool :=
  match v with PyNone => true | _ => false end.

Definition is_True (v : pyval) : bool :=
  match v with PyBool true => true | _ => false end.

(** [d.get(key, default)] on a dict with string keys. *)
Definition dict_get (d : gmap string pyval) (key : string) (dflt : pyval) : pyval :=
  default dflt (d !! key).

(** ** Exceptions and results *)

Inductive exn : Type :=
| TypeError (msg : string)
| AttributeError (msg : string)
| KeyError (key : string)
| DoesNotExist
| DataError (msg : string)
| ClientError (msg : string).

Definition exn_message (e : exn) : string :=
  match e with
  | TypeError m | AttributeError m | DataError m | ClientError m => m
  | KeyError k => k
  | DoesNotExist => ""
  end.

Inductive result (A : Type) : Type :=
| Ok (a : A)
| Raise (e : exn).
Arguments Ok {A} a.
Arguments Raise {A} e.

(** ** The world: rows and trace *)

(** A role's [members] relation; a team is identified by its name and the
    name of its organization. *)
Inductive role : Type :=
| AdminRole (org : string)
| MemberRole (org : string)
| TeamMemberRole (team org : string).

#[global] Instance role_eq_dec : EqDecision role.
Proof. solve_decision. Defined.

Definition role_encode (r : role) : string + string + string * string :=
  match r with
  | AdminRole o => inl (inl o)
  | MemberRole o => inl (inr o)
  | TeamMemberRole t o => inr (t, o)
  end.

Definition role_decode (x : string + string + string * string) : role :=
  match x with
  | inl (inl o) => AdminRole o
  | inl (inr o) => MemberRole o
  | inr (t, o) => TeamMemberRole t o
  end.

#[global] Instance role_countable : Countable role.
Proof.
  apply (inj_countable' role_encode role_decode).
  by intros [].
Defined.

Inductive level : Type := DEBUG | WARNING | ERROR | EXCEPTION.

Inductive backend_kind : Type := Directory | RADIUS | TACACSPlus | SAML.

Inductive event : Type :=
| EvFeature (name : string)                 (* feature_enabled(name) *)
| EvLog (lvl : level) (msg : string)        (* logger.<lvl>(msg) *)
| EvDelegate (b : backend_kind) (method : string)
                                            (* the base class or protocol client runs *)
| EvPrefetch                                (* get_group_dns() *)
| EvCreateOrg (name : string)               (* INSERT of an organization *)
| EvCreateTeam (name org : string)          (* INSERT of a team *)
| EvRelAdd (r : role) (u : Z) (inserted : bool)
                                            (* rel.add(user); was a row inserted *)
| EvRelRemove (r : role) (u : Z) (deleted : bool)
                                            (* rel.remove(user); was a row deleted *)
| EvProfileSave (u : Z) (dn : string)       (* profile.save() *)
| EvCreateUser (pk : Z) (username : string) (* INSERT of a user *)
| EvUserSave (pk : Z).                      (* user.save() *)

Record User : Type := mkUser {
  username : string;
  is_superuser : bool;
  unusable_password : bool
}.

(** The attributes of a settings object this module reads. An attribute may
    be missing ([getattr] with a default); a dict that is iterated is the
    list of its [items()]. *)
Record LDAPSettings : Type := mkLDAPSettings {
  SERVER_URI : pyval;
  CONNECTION_OPTIONS : option (gmap Z pyval);
  ORGANIZATION_MAP : option (list (string * gmap string pyval));
  TEAM_MAP : option (list (string * gmap string pyval))
}.

(** An [LDAPBackend] instance: its cached settings object. *)
Record LDAPBackend : Type := mkLDAPBackend {
  _settings : option LDAPSettings
}.

Record world : Type := mkWorld {
  organizations : gset string;
  teams : gset (string * string);
  role_members : gset (role * Z);
  profile_ldap_dn : gmap Z string;
  auth_user : gmap Z User;
  ldap_backend : LDAPBackend;
  trace : list event
}.

(** ** The monad of Python code: state and exceptions *)

Definition M (A : Type) : Type := world → result A * world.

Definition ret {A} (a : A) : M A := fun w => (Ok a, w).

Definition bind {A B} (m : M A) (f : A → M B) : M B :=
  fun w => match m w with
           | (Ok a, w') => f a w'
           | (Raise e, w') => (Raise e, w')
           end.

Definition raise {A} (e : exn) : M A := fun w => (Raise e, w).

(** [try: m  except Exception as e: h e] *)
Definition try_except {A} (m : M A) (h : exn → M A) : M A :=
  fun w => match m w with
           | (Ok a, w') => (Ok a, w')
           | (Raise e, w') => h e w'
           end.

Definition lift {A} (r : result A) : M A := fun w => (r, w).

Definition emit (e : event) : M unit :=
  fun w => (Ok tt, mkWorld (organizations w) (teams w) (role_members w)
                           (profile_ldap_dn w) (auth_user w) (ldap_backend w) (trace w ++ [e])).

Declare Scope py_scope.
Delimit Scope py_scope with py.
Notation "'let*' x ':=' m 'in' k" := (bind m (fun x => k))
  (at level 10, x pattern, m at level 100, k at level 200) : py_scope.
Notation "m ;; k" := (bind m (fun _ => k))
  (at level 100, k at level 200, right associativity) : py_scope.
Local Open Scope py_scope.

(** [for x in l: body x] *)
Fixpoint for_each {A} (l : list A) (body : A → M unit) : M unit :=
  match l with
  | [] => ret tt
  | x :: r => body x ;; for_each r body
  end.

(** ** Store primitives *)

Definition set_organizations (o : gset string) : M unit :=
  fun w => (Ok tt, mkWorld o (teams w) (role_members w)
                           (profile_ldap_dn w) (auth_user w) (ldap_backend w) (trace w)).

Definition set_teams (t : gset (string * string)) : M unit :=
  fun w => (Ok tt, mkWorld (organizations w) t (role_members w)
                           (profile_ldap_dn w) (auth_user w) (ldap_backend w) (trace w)).

Definition set_role_members (r : gset (role * Z)) : M unit :=
  fun w => (Ok tt, mkWorld (organizations w) (teams w) r
                           (profile_ldap_dn w) (auth_user w) (ldap_backend w) (trace w)).

Definition set_profile_ldap_dn (p : gmap Z string) : M unit :=
  fun w => (Ok tt, mkWorld (organizations w) (teams w) (role_members w)
                           p (auth_user w) (ldap_backend w) (trace w)).

Definition set_auth_user (u : gmap Z User) : M unit :=
  fun w => (Ok tt, mkWorld (organizations w) (teams w) (role_members w)
                           (profile_ldap_dn w) u (ldap_backend w) (trace w)).

Definition set_ldap_backend (b : LDAPBackend) : M unit :=
  fun w => (Ok tt, mkWorld (organizations w) (teams w) (role_members w)
                           (profile_ldap_dn w) (auth_user w) b (trace w)).

Definition get_world : M world := fun w => (Ok w, w).

(** [Organization.objects.get_or_create(name=name)]: the organization and
    whether it was created. *)
Definition Organization_get_or_create (name : string) : M (string * bool) :=
  let* w := get_world in
  if decide (name ∈ organizations w) then ret (name, false)
  else
    set_organizations ({[name]} ∪ organizations w) ;;
    emit (EvCreateOrg name) ;;
    ret (name, true).

(** [Team.objects.get_or_create(name=name, organization=org)] *)
Definition Team_get_or_create (name org : string) : M (string * string * bool) :=
  let* w := get_world in
  if decide ((name, org) ∈ teams w) then ret (name, org, false)
  else
    set_teams ({[(name, org)]} ∪ teams w) ;;
    emit (EvCreateTeam name org) ;;
    ret (name, org, true).

(** [rel.add(user)] and [rel.remove(user)] on the join table of a role's
    members: [add] inserts the row that is missing, [remove] deletes the
    row that is there. *)
Definition rel_add (rel : role) (user : Z) : M unit :=
  let* w := get_world in
  emit (EvRelAdd rel user (bool_decide ((rel, user) ∉ role_members w))) ;;
  set_role_members ({[(rel, user)]} ∪ role_members w).

Definition rel_remove (rel : role) (user : Z) : M unit :=
  let* w := get_world in
  emit (EvRelRemove rel user (bool_decide ((rel, user) ∈ role_members w))) ;;
  set_role_members (role_members w ∖ {[(rel, user)]}).

(** ** LDAP settings and the authenticated LDAP user *)

(** [ldap_user]: its [dn], the membership test of [_get_groups()] and the
    settings of its backend. *)
Record LDAPUser : Type := mkLDAPUser {
  dn : string;
  is_member_of : string → bool;
  backend_settings : LDAPSettings
}.

(** ** Group synchronisation *)

(** The loop [for group_dn in opts] of [_update_m2m_from_groups]: an entry
    that is not a string is skipped ([continue]); the loop has no [break]. *)
Definition group_loop (ldap_user : LDAPUser) (opts : list pyval) (should_add : bool) : bool :=
  fold_left (fun should_add group_dn =>
               match group_dn with
               | PyStr g => if is_member_of ldap_user g then true else should_add
               | _ => should_add
               end) opts should_add.

(** The value of [should_add] after the [if]/[elif] chain, for [opts] that
    is not [None]. Iterating a value that is neither a string nor a list
    raises [TypeError]. *)
Definition should_add_of (ldap_user : LDAPUser) (opts : pyval) : result bool :=
  if negb (truthy opts) then Ok false
  else if is_True opts then Ok true
  else match opts with
       | PyStr s => Ok (group_loop ldap_user [PyStr s] false)
       | PyList l => Ok (group_loop ldap_user l false)
       | _ => Raise (TypeError "object is not iterable")
       end.

Definition _update_m2m_from_groups (user : Z) (ldap_user : LDAPUser)
    (rel : role) (opts : pyval) (remove : bool) : M unit :=
  if is_None opts then ret tt
  else
    let* should_add := lift (should_add_of ldap_user opts) in
    if (should_add : bool) then rel_add rel user
    else if remove then rel_remove rel user
    else ret tt.

(** Body of the loop over [org_map.items()]. *)
Definition update_organization (user : Z) (ldap_user : LDAPUser)
    (org_name : string) (org_opts : gmap string pyval) : M unit :=
  let* (org, created) := Organization_get_or_create org_name in
  let remove := truthy (dict_get org_opts "remove" (PyBool true)) in
  let admins_opts := dict_get org_opts "admins" PyNone in
  let remove_admins := truthy (dict_get org_opts "remove_admins" (PyBool remove)) in
  _update_m2m_from_groups user ldap_user (AdminRole org) admins_opts remove_admins ;;
  let users_opts := dict_get org_opts "users" PyNone in
  let remove_users := truthy (dict_get org_opts "remove_users" (PyBool remove)) in
  _update_m2m_from_groups user ldap_user (MemberRole org) users_opts remove_users.

(** Body of the loop over [team_map.items()]. The store takes a string
    as the name of an organization and rejects anything else. *)
Definition update_team (user : Z) (ldap_user : LDAPUser)
    (team_name : string) (team_opts : gmap string pyval) : M unit :=
  match team_opts !! "organization" with
  | None => ret tt
  | Some (PyStr organization) =>
      let* (org, created) := Organization_get_or_create organization in
      let* (team, team_org, created) := Team_get_or_create team_name org in
      let users_opts := dict_get team_opts "users" PyNone in
      let remove := truthy (dict_get team_opts "remove" (PyBool true)) in
      _update_m2m_from_groups user ldap_user (TeamMemberRole team team_org) users_opts remove
  | Some _ => raise (DataError "organization")
  end.

(** [profile.ldap_dn] of a user; a profile starts with the empty string. *)
Definition stored_ldap_dn (w : world) (user : Z) : string :=
  default "" (profile_ldap_dn w !! user).

(** The last lines: store the LDAP DN in the user's profile. *)
Definition update_profile (user : Z) (ldap_user : LDAPUser) : M unit :=
  let* w := get_world in
  if decide (stored_ldap_dn w user ≠ dn ldap_user) then
    set_profile_ldap_dn (<[user := dn ldap_user]> (profile_ldap_dn w)) ;;
    emit (EvProfileSave user (dn ldap_user))
  else ret tt.

Definition on_populate_user (user : Z) (ldap_user : LDAPUser) : M unit :=
  let backend_settings := backend_settings ldap_user in
  emit EvPrefetch ;;
  let org_map := default [] (ORGANIZATION_MAP backend_settings) in
  for_each org_map (fun '(org_name, org_opts) =>
    update_organization user ldap_user org_name org_opts) ;;
  let team_map := default [] (TEAM_MAP backend_settings) in
  for_each team_map (fun '(team_name, team_opts) =>
    update_team user ldap_user team_name team_opts) ;;
  update_profile user ldap_user.

(** ** The settings object: [LDAPSettings.__init__] *)

Section LDAPSettingsInit.
(** [ldap.OPT_NETWORK_TIMEOUT], and [BaseLDAPSettings.__init__], which
    composes the attributes from the Django settings under a prefix. *)
Variable OPT_NETWORK_TIMEOUT : Z.
Variable BaseLDAPSettings_init : string → gmap string pyval → LDAPSettings.

Definition LDAPSettings_init (prefix : string) (defaults : gmap string pyval)
    : LDAPSettings :=
  let self := BaseLDAPSettings_init prefix defaults in
  match default ∅ (CONNECTION_OPTIONS self) !! OPT_NETWORK_TIMEOUT with
  | None =>
      let options := default ∅ (CONNECTION_OPTIONS self) in
      let options := <[OPT_NETWORK_TIMEOUT := PyInt 30]> options in
      mkLDAPSettings (SERVER_URI self) (Some options)
                     (ORGANIZATION_MAP self) (TEAM_MAP self)
  | Some _ => self
  end.
End LDAPSettingsInit.

(** ** The backends *)

(** The Django settings the RADIUS, TACACS+ and SAML backends read. Of the
    dict-valued SAML settings only the truth value is read. *)
Record DjangoSettings : Type := mkDjangoSettings {
  RADIUS_SERVER : pyval;
  TACACSPLUS_HOST : string;
  TACACSPLUS_PORT : Z;
  TACACSPLUS_SECRET : string;
  TACACSPLUS_SESSION_TIMEOUT : Z;
  TACACSPLUS_AUTH_PROTOCOL : string;
  SOCIAL_AUTH_SAML_SP_ENTITY_ID : pyval;
  SOCIAL_AUTH_SAML_SP_PUBLIC_CERT : pyval;
  SOCIAL_AUTH_SAML_SP_PRIVATE_KEY : pyval;
  SOCIAL_AUTH_SAML_ORG_INFO : pyval;
  SOCIAL_AUTH_SAML_TECHNICAL_CONTACT : pyval;
  SOCIAL_AUTH_SAML_SUPPORT_CONTACT : pyval;
  SOCIAL_AUTH_SAML_ENABLED_IDPS : pyval
}.

(** A user object: primary key and row. *)
Definition UserObj : Type := Z * User.

Definition settings_prefix : string := "AUTH_LDAP_".

(** [s.encode('utf-8')]; [None] has no such attribute. *)
Definition encode (s : option string) : result string :=
  match s with
  | Some s => Ok s
  | None => Raise (AttributeError "'NoneType' object has no attribute 'encode'")
  end.

(** [d[key]] *)
Definition dict_item {V} (d : gmap string V) (key : string) : result V :=
  match d !! key with
  | Some v => Ok v
  | None => Raise (KeyError key)
  end.

(** [User.objects.get(pk=pk)] *)
Definition User_get (pk : Z) : M UserObj :=
  let* w := get_world in
  match auth_user w !! pk with
  | Some u => ret (pk, u)
  | None => raise DoesNotExist
  end.

Definition find_username (users : gmap Z User) (name : string) : option UserObj :=
  head (filter (fun p => bool_decide (username p.2 = name)) (map_to_list users)).

Definition next_pk (users : gmap Z User) : Z :=
  Z.succ (map_fold (fun k _ acc => Z.max k acc) 0%Z users).

(** [User.objects.get_or_create(username=username, defaults={'is_superuser': is_su})] *)
Definition User_get_or_create (name : string) (is_su : bool) : M (UserObj * bool) :=
  let* w := get_world in
  match find_username (auth_user w) name with
  | Some u => ret (u, false)
  | None =>
      let pk := next_pk (auth_user w) in
      let row := mkUser name is_su false in
      set_auth_user (<[pk := row]> (auth_user w)) ;;
      emit (EvCreateUser pk name) ;;
      ret ((pk, row), true)
  end.

(** [user.set_unusable_password(); user.save()] *)
Definition set_unusable_password_and_save (user : UserObj) : M UserObj :=
  let* w := get_world in
  let row := mkUser (username user.2) (is_superuser user.2) true in
  set_auth_user (<[user.1 := row]> (auth_user w)) ;;
  emit (EvUserSave user.1) ;;
  ret (user.1, row).

Section Backends.
Variable OPT_NETWORK_TIMEOUT : Z.
Variable BaseLDAPSettings_init : string → gmap string pyval → LDAPSettings.
Variable django_settings : DjangoSettings.
(** [awx.conf.license.feature_enabled] *)
Variable feature_enabled : string → bool.
(** The methods of the third-party base classes. *)
Variable BaseLDAPBackend_authenticate : string → option string → M (option UserObj).
Variable BaseLDAPBackend_get_user : Z → M (option UserObj).
Variable BaseRADIUSBackend_authenticate : string → option string → M (option UserObj).
Variable BaseRADIUSBackend_get_user : Z → M (option UserObj).
Variable BaseSAMLAuth_authenticate : list pyval → M (option UserObj).
Variable BaseSAMLAuth_get_user : Z → M (option UserObj).
(** [tacacs_plus.TACACSClient(host, port, secret, timeout=t).authenticate(u, p, ty)],
    giving the [valid] flag of the reply, and the table of protocols. *)
Variable TACACSClient_authenticate :
  string → Z → string → Z → string → string → Z → M bool.
Variable TAC_PLUS_AUTHEN_TYPES : gmap string Z.

Definition call_feature_enabled (name : string) : M bool :=
  emit (EvFeature name) ;; ret (feature_enabled name).

(** *** LDAPBackend *)

Definition _on_setting_changed (setting : option string) : M unit :=
  if String.prefix settings_prefix (default "" setting)
  then set_ldap_backend (mkLDAPBackend None)
  else ret tt.

Definition _get_settings : M LDAPSettings :=
  let* w := get_world in
  match _settings (ldap_backend w) with
  | None =>
      let s := LDAPSettings_init OPT_NETWORK_TIMEOUT BaseLDAPSettings_init
                                 settings_prefix ∅ in
      set_ldap_backend (mkLDAPBackend (Some s)) ;;
      ret s
  | Some s => ret s
  end.


Definition LDAPBackend_authenticate (username : string) (password : option string)
    : M (option UserObj) :=
  let* settings := _get_settings in
  if negb (truthy (SERVER_URI settings)) then ret None
  else
    let* enabled := call_feature_enabled "ldap" in
    if negb enabled then
      emit (EvLog ERROR "Unable to authenticate, license does not support LDAP authentication") ;;
      ret None
    else
      try_except
        (emit (EvDelegate Directory "authenticate") ;;
         BaseLDAPBackend_authenticate username password)
        (fun _ =>
           emit (EvLog EXCEPTION "Encountered an error authenticating to LDAP") ;;
           ret None).

Definition LDAPBackend_get_user (user_id : Z) : M (option UserObj) :=
  let* settings := _get_settings in
  if negb (truthy (SERVER_URI settings)) then ret None
  else
    let* enabled := call_feature_enabled "ldap" in
    if negb enabled then
      emit (EvLog ERROR "Unable to get_user, license does not support LDAP authentication") ;;
      ret None
    else
      emit (EvDelegate Directory "get_user") ;;
      BaseLDAPBackend_get_user user_id.

(** *** RADIUSBackend *)

Definition RADIUSBackend_authenticate (username : string) (password : option string)
    : M (option UserObj) :=
  if negb (truthy (RADIUS_SERVER django_settings)) then ret None
  else
    let* enabled := call_feature_enabled "enterprise_auth" in
    if negb enabled then
      emit (EvLog ERROR "Unable to authenticate, license does not support RADIUS authentication") ;;
      ret None
    else
      emit (EvDelegate RADIUS "authenticate") ;;
      BaseRADIUSBackend_authenticate username password.

Definition RADIUSBackend_get_user (user_id : Z) : M (option UserObj) :=
  if negb (truthy (RADIUS_SERVER django_settings)) then ret None
  else
    let* enabled := call_feature_enabled "enterprise_auth" in
    if negb enabled then
      emit (EvLog ERROR "Unable to get_user, license does not support RADIUS authentication") ;;
      ret None
    else
      emit (EvDelegate RADIUS "get_user") ;;
      BaseRADIUSBackend_get_user user_id.

(** *** TACACSPlusBackend *)

Definition _get_or_set_user (username : string) (password : option string)
    : M UserObj :=
  let* (user, created) := User_get_or_create username false in
  (if (created : bool) then emit (EvLog DEBUG ("Created TACACS+ user " ++ username))
   else ret tt) ;;
  match password with
  | Some _ => set_unusable_password_and_save user
  | None => ret user
  end.

(** The [try] block of [authenticate]: the arguments are evaluated, then
    the client is asked. *)
Definition tacacs_try (username : string) (password : option string) : M bool :=
  let* host := lift (encode (Some (TACACSPLUS_HOST django_settings))) in
  let* secret := lift (encode (Some (TACACSPLUS_SECRET django_settings))) in
  let* u := lift (encode (Some username)) in
  let* p := lift (encode password) in
  let* ty := lift (dict_item TAC_PLUS_AUTHEN_TYPES
                             (TACACSPLUS_AUTH_PROTOCOL django_settings)) in
  emit (EvDelegate TACACSPlus "authenticate") ;;
  TACACSClient_authenticate host (TACACSPLUS_PORT django_settings) secret
    (TACACSPLUS_SESSION_TIMEOUT django_settings) u p ty.

Definition TACACSPlusBackend_authenticate (username : string) (password : option string)
    : M (option UserObj) :=
  if negb (truthy (PyStr (TACACSPLUS_HOST django_settings))) then ret None
  else
    let* enabled := call_feature_enabled "enterprise_auth" in
    if negb enabled then
      emit (EvLog ERROR "Unable to authenticate, license does not support TACACS+ authentication") ;;
      ret None
    else
      let* auth :=
        try_except
          (let* valid := tacacs_try username password in ret (Some valid))
          (fun e =>
             emit (EvLog EXCEPTION ("TACACS+ Authentication Error: " ++ exn_message e)) ;;
             ret None) in
      match auth with
      | None => ret None
      | Some valid =>
          if (valid : bool) then
            let* user := _get_or_set_user username password in ret (Some user)
          else ret None
      end.

Definition TACACSPlusBackend_get_user (user_id : Z) : M (option UserObj) :=
  if negb (truthy (PyStr (TACACSPLUS_HOST django_settings))) then ret None
  else
    let* enabled := call_feature_enabled "enterprise_auth" in
    if negb enabled then
      emit (EvLog ERROR "Unable to get user, license does not support TACACS+ authentication") ;;
      ret None
    else
      try_except
        (let* user := User_get user_id in ret (Some user))
        (fun e => match e with
                  | DoesNotExist => ret None
                  | _ => raise e
                  end).

(** *** SAMLAuth *)

Definition saml_configured : bool :=
  forallb truthy
    [SOCIAL_AUTH_SAML_SP_ENTITY_ID django_settings;
     SOCIAL_AUTH_SAML_SP_PUBLIC_CERT django_settings;
     SOCIAL_AUTH_SAML_SP_PRIVATE_KEY django_settings;
     SOCIAL_AUTH_SAML_ORG_INFO django_settings;
     SOCIAL_AUTH_SAML_TECHNICAL_CONTACT django_settings;
     SOCIAL_AUTH_SAML_SUPPORT_CONTACT django_settings;
     SOCIAL_AUTH_SAML_ENABLED_IDPS django_settings].

Definition SAMLAuth_authenticate (args : list pyval) : M (option UserObj) :=
  if negb saml_configured then ret None
  else
    let* enabled := call_feature_enabled "enterprise_auth" in
    if negb enabled then
      emit (EvLog ERROR "Unable to authenticate, license does not support SAML authentication") ;;
      ret None
    else
      emit (EvDelegate SAML "authenticate") ;;
      BaseSAMLAuth_authenticate args.

Definition SAMLAuth_get_user (user_id : Z) : M (option UserObj) :=
  if negb saml_configured then ret None
  else
    let* enabled := call_feature_enabled "enterprise_auth" in
    if negb enabled then
      emit (EvLog ERROR "Unable to get_user, license does not support SAML authentication") ;;
      ret None
    else
      emit (EvDelegate SAML "get_user") ;;
      BaseSAMLAuth_get_user user_id.
End Backends.

(** ** Views of the code used in the statements *)

(** The effective removal flags of an organization entry, as
    [on_populate_user] computes them into [remove], [remove_admins] and
    [remove_users]. *)
Definition org_remove (org_opts : gmap string pyval) : bool :=
  truthy (dict_get org_opts "remove" (PyBool true)).

Definition org_remove_admins (org_opts : gmap string pyval) : bool :=
  truthy (dict_get org_opts "remove_admins" (PyBool (org_remove org_opts))).

Definition org_remove_users (org_opts : gmap string pyval) : bool :=
  truthy (dict_get org_opts "remove_users" (PyBool (org_remove org_opts))).

(** What the oracle reports for one entry of a list of groups. *)
Definition reports_membership (ldap_user : LDAPUser) (group_dn : pyval) : bool :=
  match group_dn with
  | PyStr g => is_member_of ldap_user g
  | _ => false
  end.

(** [on_populate_user] up to the comment "Update user profile to store
    LDAP DN". *)
Definition update_memberships (user : Z) (ldap_user : LDAPUser) : M unit :=
  let backend_settings := backend_settings ldap_user in
  emit EvPrefetch ;;
  let org_map := default [] (ORGANIZATION_MAP backend_settings) in
  for_each org_map (fun '(org_name, org_opts) =>
    update_organization user ldap_user org_name org_opts) ;;
  let team_map := default [] (TEAM_MAP backend_settings) in
  for_each team_map (fun '(team_name, team_opts) =>
    update_team user ldap_user team_name team_opts).

(** Events that insert an entity or save one. *)
Definition creates (e : event) : bool :=
  match e with
  | EvCreateOrg _ | EvCreateTeam _ _ | EvProfileSave _ _
  | EvCreateUser _ _ | EvUserSave _ => true
  | _ => false
  end.

(** An [add] that inserts, a [remove] that deletes a membership row. *)
Definition changes_membership (e : event) : bool :=
  match e with
  | EvRelAdd _ _ changed | EvRelRemove _ _ changed => changed
  | _ => false
  end.

(** Events that change a row of the store. *)
Definition persists (e : event) : bool :=
  creates e || changes_membership e.

(** Events of the membership update. *)
Definition membership_event (e : event) : bool :=
  match e with
  | EvPrefetch | EvCreateOrg _ | EvCreateTeam _ _
  | EvRelAdd _ _ _ | EvRelRemove _ _ _ => true
  | _ => false
  end.

(** [m] has a fixed result and a fixed effect on the store: it inserts the
    organizations [O] and teams [T], deletes the membership rows [R], then
    holds the rows [Ad]; it inserts nothing where [O] and [T] exist. *)
Definition sync_effect {A} (m : M A) (res : result A)
    (O : gset string) (T : gset (string * string)) (R Ad : gset (role * Z)) : Prop :=
  ∀ w, ∃ tr,
    m w = (res, mkWorld (organizations w ∪ O) (teams w ∪ T)
                        ((role_members w ∖ R) ∪ Ad)
                        (profile_ldap_dn w) (auth_user w) (ldap_backend w)
                        (trace w ++ tr))
    ∧ Forall (fun e => membership_event e = true) tr
    ∧ (O ⊆ organizations w → T ⊆ teams w → Forall (fun e => creates e = false) tr).

Definition uniform {A} (m : M A) : Prop :=
  ∃ res O T R Ad, sync_effect m res O T R Ad.

(** A fixed effect whose deleted and held rows are apart, and which changes
    no membership row where the rows it deletes are missing and the rows it
    holds are there. *)
Definition tidy_effect {A} (m : M A) (res : result A)
    (O : gset string) (T : gset (string * string)) (R Ad : gset (role * Z)) : Prop :=
  sync_effect m res O T R Ad
  ∧ R ## Ad
  ∧ ∀ w tr, trace (m w).2 = (trace w ++ tr)%list →
            Ad ⊆ role_members w → R ## role_members w →
            Forall (fun e => changes_membership e = false) tr.

(** A tidy effect on membership rows within the footprint [F]. *)
Definition tidy_in {A} (F : role * Z → Prop) (m : M A) : Prop :=
  ∃ res O T R Ad, tidy_effect m res O T R Ad ∧ ∀ x, x ∈ R ∪ Ad → F x.

(** The membership rows an organization entry and a team entry may touch. *)
Definition org_footprint (user : Z) (org_name : string) (x : role * Z) : Prop :=
  x = (AdminRole org_name, user) ∨ x = (MemberRole org_name, user).

Definition team_footprint (user : Z) (team_name : string) (x : role * Z) : Prop :=
  ∃ org, x = (TeamMemberRole team_name org, user).

(** The rows the entries of a mapping may touch. *)
Definition map_footprint {V} (Fp : string → role * Z → Prop)
    (l : list (string * V)) (x : role * Z) : Prop :=
  ∃ k, k ∈ l.*1 ∧ Fp k x.

(** A role's membership set is the same in [w'] as in [w], and the events
    between the two hold no [add] and no [remove] on it. *)
Definition untouched (rel : role) (w w' : world) : Prop :=
  (∀ u, (rel, u) ∈ role_members w' ↔ (rel, u) ∈ role_members w)
  ∧ (∃ tr, trace w' = (trace w ++ tr)%list
           ∧ (∀ u b, (EvRelAdd rel u b ∉ tr) ∧ (EvRelRemove rel u b ∉ tr))).

(** The world with more events on its trace. *)
Definition with_trace (w : world) (tr : list event) : world :=
  mkWorld (organizations w) (teams w) (role_members w) (profile_ldap_dn w)
          (auth_user w) (ldap_backend w) (trace w ++ tr).

(** The settings object the [settings] property of the LDAP backend gives
    in [w], and the world once the property has been read: the object is
    cached. *)
Definition current_settings (OPT_NETWORK_TIMEOUT : Z)
    (BaseLDAPSettings_init : string → gmap string pyval → LDAPSettings)
    (w : world) : LDAPSettings :=
  match _settings (ldap_backend w) with
  | Some s => s
  | None => LDAPSettings_init OPT_NETWORK_TIMEOUT BaseLDAPSettings_init
                              settings_prefix ∅
  end.

Definition cached_world (OPT_NETWORK_TIMEOUT : Z)
    (BaseLDAPSettings_init : string → gmap string pyval → LDAPSettings)
    (w : world) : world :=
  mkWorld (organizations w) (teams w) (role_members w) (profile_ldap_dn w)
          (auth_user w)
          (mkLDAPBackend
             (Some (current_settings OPT_NETWORK_TIMEOUT BaseLDAPSettings_init w)))
          (trace w).

(** A gate that is closed without a word: [None], and the world as it was. *)
Definition silent_none {A} (m : M (option A)) (w w' : world) : Prop :=
  m w = (Ok None, w').

(** A gate closed for want of a license: [None], after the feature was
    looked up and one error was logged; nothing else happened. *)
Definition refused {A} (m : M (option A)) (feature msg : string) (w w' : world) : Prop :=
  m w = (Ok None, with_trace w' [EvFeature feature; EvLog ERROR msg]).

(** ** A small deployment, to run the code on *)

Definition empty_world : world :=
  mkWorld ∅ ∅ ∅ ∅ ∅ (mkLDAPBackend None) [].

Definition engineering_opts : gmap string pyval :=
  <["admins" := PyList [PyStr "cn=admins,dc=x"]]> (<["users" := PyBool true]> ∅).

Definition qa_opts : gmap string pyval :=
  <["organization" := PyStr "Engineering"]> (<["users" := PyBool true]> ∅).

Definition example_settings : LDAPSettings :=
  mkLDAPSettings (PyStr "ldap://ldap.example.com") (Some ∅)
                 (Some [("Engineering", engineering_opts)])
                 (Some [("QA", qa_opts)]).

(** Alice is in the admins group, Bob in no group. *)
Definition alice : LDAPUser :=
  mkLDAPUser "uid=alice,dc=x" (String.eqb "cn=admins,dc=x") example_settings.

Definition bob : LDAPUser :=
  mkLDAPUser "uid=bob,dc=x" (fun _ => false) example_settings.

(** Bob (user 2) was made an admin and a member of Engineering by hand. *)
Definition bob_world : world :=
  mkWorld {["Engineering"]} ∅
          {[(AdminRole "Engineering", 2); (MemberRole "Engineering", 2)]}
          ∅ ∅ (mkLDAPBackend None) [].

(** Settings with every backend configured, and with none. *)
Definition configured_settings : DjangoSettings :=
  mkDjangoSettings (PyStr "radius.example.com")
    "tacacs.example.com" 49 "secret" 5 "ascii"
    (PyStr "https://tower.example.com") (PyStr "CERT") (PyStr "KEY")
    (PyList [PyStr "en-US"]) (PyList [PyStr "tech"]) (PyList [PyStr "support"])
    (PyList [PyStr "idp"]).

Definition unconfigured_settings : DjangoSettings :=
  mkDjangoSettings (PyStr "") "" 49 "" 5 "ascii"
    PyNone PyNone PyNone PyNone PyNone PyNone PyNone.

Definition unconfigured_ldap (prefix : string) (defaults : gmap string pyval)
    : LDAPSettings :=
  mkLDAPSettings (PyStr "") None None None.

Definition configured_ldap (prefix : string) (defaults : gmap string pyval)
    : LDAPSettings :=
  example_settings.

(** [ldap.OPT_NETWORK_TIMEOUT] in python-ldap. *)
Definition python_ldap_OPT_NETWORK_TIMEOUT : Z := 20485.

(** Base classes and a client whose server does not answer. *)
Definition failing_authenticate (username : string) (password : option string)
    : M (option UserObj) :=
  raise (ClientError "timed out").

Definition failing_saml (args : list pyval) : M (option UserObj) :=
  raise (ClientError "timed out").

Definition failing_tacacs_client (host : string) (port : Z) (secret : string)
    (timeout : Z) (username password : string) (authen_type : Z) : M bool :=
  raise (ClientError "timed out").

Definition idle_get_user (user_id : Z) : M (option UserObj) := ret None.

Definition tacacs_authen_types : gmap string Z :=
  <["ascii" := 1%Z]> (<["pap" := 2%Z]> (<["chap" := 3%Z]> ∅)).

(** A store with one user. *)
Definition carol_world : world :=
  mkWorld ∅ ∅ ∅ ∅ (<[5%Z := mkUser "carol" false true]> ∅) (mkLDAPBackend None) [].

(** ** Views used for the further properties *)

(** The rows of the store, without the trace. *)
Definition tables (w : world)
    : gset string * gset (string * string) * gset (role * Z) * gmap Z string
      * gmap Z User * LDAPBackend :=
  (organizations w, teams w, role_members w, profile_ldap_dn w, auth_user w,
   ldap_backend w).

(** The same LDAP user, its mapping dicts iterated in another order. *)
Definition with_maps (ldap_user : LDAPUser)
    (org_map team_map : list (string * gmap string pyval)) : LDAPUser :=
  mkLDAPUser (dn ldap_user) (is_member_of ldap_user)
    (mkLDAPSettings (SERVER_URI (backend_settings ldap_user))
       (CONNECTION_OPTIONS (backend_settings ldap_user))
       (Some org_map) (Some team_map)).






(** The membership table never loses a row under [m]. *)
Definition keeps_rows {A} (m : M A) : Prop :=
  ∀ w, role_members w ⊆ role_members (m w).2.

(** ** The rest of the module *)

(** *** [LDAPSettings.defaults] *)

(** [dict(items)]: of two items with one key the later one stays. *)
Definition python_dict {V} (items : list (string * V)) : gmap string V :=
  list_to_map (reverse items).

(** [dict(BaseLDAPSettings.defaults.items() + {'ORGANIZATION_MAP': {},
    'TEAM_MAP': {}}.items())], for any type of default values with an
    empty dict. *)
Definition LDAPSettings_defaults {V} (base_defaults : gmap string V) (empty_dict : V)
    : gmap string V :=
  python_dict
    (map_to_list base_defaults
     ++ map_to_list (<["ORGANIZATION_MAP" := empty_dict]>
                       (<["TEAM_MAP" := empty_dict]> (∅ : gmap string V)))).

(** *** [RADIUSBackend.get_django_user] *)

(** A user object that may not be saved yet: its primary key is [None]
    until [save()]. *)
Definition UserInstance : Type := option Z * User.

(** The row after [set_unusable_password()]. *)
Definition set_unusable (u : User) : User :=
  mkUser (username u) (is_superuser u) true.

(** [User.objects.get(username=name)] *)
Definition User_get_by_username (name : string) : M UserObj :=
  let* w := get_world in
  match find_username (auth_user w) name with
  | Some u => ret u
  | None => raise DoesNotExist
  end.

(** [user.save()]: an INSERT with a new primary key for an object that was
    never saved, an UPDATE of its row otherwise. *)
Definition User_save (user : UserInstance) : M UserInstance :=
  let* w := get_world in
  match user.1 with
  | Some pk =>
      set_auth_user (<[pk := user.2]> (auth_user w)) ;;
      emit (EvUserSave pk) ;;
      ret user
  | None =>
      let pk := next_pk (auth_user w) in
      set_auth_user (<[pk := user.2]> (auth_user w)) ;;
      emit (EvCreateUser pk (username user.2)) ;;
      ret (Some pk, user.2)
  end.

Definition RADIUSBackend_get_django_user (username : string) (password : option string)
    : M UserInstance :=
  let* user :=
    try_except
      (let* found := User_get_by_username username in ret (Some found.1, found.2))
      (fun e => match e with
                | DoesNotExist => ret (None, mkUser username false false)
                | _ => raise e
                end) in
  match password with
  | Some _ => User_save (user.1, set_unusable user.2)
  | None => ret user
  end.

(** No two rows of the user table have one username. *)
Definition unique_usernames (users : gmap Z User) : Prop :=
  ∀ k1 k2 r1 r2, users !! k1 = Some r1 → users !! k2 = Some r2 →
                 username r1 = username r2 → k1 = k2.

(** *** [TowerSAMLIdentityProvider] and [SAMLAuth.get_idp] *)

(** The provider reads attribute dicts and logs; its errors are those of
    subscripting. *)
Inductive attr_error : Type :=
| AttrKeyError (key : string)
| AttrIndexError
| AttrTypeError.

Record TowerSAMLIdentityProvider : Type := mkIdP {
  idp_name : string;
  conf : gmap string string
}.

(** [v[0]] *)
Definition py_first (v : pyval) : attr_error + pyval :=
  match v with
  | PyStr (String c _) => inr (PyStr (String c ""))
  | PyStr "" => inl AttrIndexError
  | PyList (x :: _) => inr x
  | PyList [] => inl AttrIndexError
  | _ => inl AttrTypeError
  end.

(** [s[n:]] *)
Fixpoint string_drop (n : nat) (s : string) : string :=
  match n, s with
  | O, _ => s
  | S n, String _ r => string_drop n r
  | S _, "" => ""
  end.

Definition warned_keys : list string :=
  ["attr_first_name"; "attr_last_name"; "attr_username"; "attr_email"].

Definition get_attr_warning (self : TowerSAMLIdentityProvider)
    (conf_key key : string) : string :=
  "Could not map user detail '" ++ string_drop 5 conf_key
  ++ "' from SAML attribute '" ++ key
  ++ "'; update SOCIAL_AUTH_SAML_ENABLED_IDPS['" ++ idp_name self
  ++ "']['" ++ conf_key ++ "'] with the correct SAML attribute.".

Section SAMLIdentityProvider.
(** [social.backends.saml.OID_USERID] and the builtin [unicode]. *)
Variable OID_USERID : string.
Variable unicode : pyval → string.

Definition get_user_permanent_id (self : TowerSAMLIdentityProvider)
    (attributes : gmap string pyval) : attr_error + pyval :=
  let key := default OID_USERID (conf self !! "attr_user_permanent_id") in
  match attributes !! key with
  | None => inl (AttrKeyError key)
  | Some uid =>
      match uid with
      | PyStr _ => inr uid
      | _ => py_first uid
      end
  end.

(** [get_attr]: the value returned and what was logged. *)
Definition get_attr (self : TowerSAMLIdentityProvider)
    (attributes : gmap string pyval) (conf_key default_attribute : string)
    : attr_error + (option string * list event) :=
  let key := default default_attribute (conf self !! conf_key) in
  match (match attributes !! key with
         | Some v => py_first v
         | None => inr PyNone
         end) with
  | inl e => inl e
  | inr value =>
      let logged :=
        if bool_decide (conf_key ∈ warned_keys) && is_None value
        then [EvLog WARNING (get_attr_warning self conf_key key)]
        else [] in
      inr (if is_None value then None else Some (unicode value), logged)
  end.

(** [SAMLAuth.get_idp], from the [ENABLED_IDPS] setting. *)
Definition get_idp (ENABLED_IDPS : gmap string (gmap string string))
    (idp_name : string) : attr_error + TowerSAMLIdentityProvider :=
  match ENABLED_IDPS !! idp_name with
  | Some idp_config => inr (mkIdP idp_name idp_config)
  | None => inl (AttrKeyError idp_name)
  end.
End SAMLIdentityProvider.

(** A directory of identity providers and the attributes of an assertion. *)
Definition example_idps : gmap string (gmap string string) :=
  <["okta" := <["attr_email" := "mail"]> ∅]> ∅.

Definition example_attributes : gmap string pyval :=
  <["mail" := PyList [PyStr "alice@example.com"; PyStr "a@example.com"]]>
    (<["urn:oid:0.9.2342.19200300.100.1.1" := PyList [PyStr "alice"]]>
       (<["groups" := PyList []]> ∅)).

Definition example_unicode (v : pyval) : string :=
  match v with PyStr s => s | _ => "" end.

(** TACACS+ servers that accept and that reject, and a base class that
    knows Carol. *)
Definition accepting_tacacs_client (host : string) (port : Z) (secret : string)
    (timeout : Z) (username password : string) (authen_type : Z) : M bool :=
  ret true.

Definition rejecting_tacacs_client (host : string) (port : Z) (secret : string)
    (timeout : Z) (username password : string) (authen_type : Z) : M bool :=
  ret false.

Definition carol_authenticate (username : string) (password : option string)
    : M (option UserObj) :=
  ret (Some (5%Z, mkUser "carol" false true)).

Definition carol_saml (args : list pyval) : M (option UserObj) :=
  ret (Some (5%Z, mkUser "carol" false true)).

Definition okta : TowerSAMLIdentityProvider :=
  mkIdP "okta" (<["attr_email" := "mail"]> ∅).

(** * Proofs *)

Lemma world_eq o t r p u b tr o' t' r' p' u' b' tr' :
  o = o' → t = t' → r = r' → p = p' → u = u' → b = b' → tr = tr' →
  mkWorld o t r p u b tr = mkWorld o' t' r' p' u' b' tr'.
Proof. by intros -> -> -> -> -> -> ->. Qed.

Lemma bind_ok {A B} (m : M A) (f : A → M B) w a w' :
  m w = (Ok a, w') → bind m f w = f a w'.
Proof. unfold bind. by intros ->. Qed.

Lemma bind_raise {A B} (m : M A) (f : A → M B) w e w' :
  m w = (Raise e, w') → bind m f w = (Raise e, w').
Proof. unfold bind. by intros ->. Qed.

(** *** The effect of the membership update *)

Lemma effect_ret {A} (a : A) : sync_effect (ret a) (Ok a) ∅ ∅ ∅ ∅.
Proof.
  intros w. exists []. split_and!; [|by constructor|by constructor].
  unfold ret. f_equal. destruct w; simpl.
  apply world_eq; try done; try set_solver. by rewrite app_nil_r.
Qed.

Lemma effect_lift {A} (r : result A) : sync_effect (lift r) r ∅ ∅ ∅ ∅.
Proof.
  intros w. exists []. split_and!; [|by constructor|by constructor].
  unfold lift. f_equal. destruct w; simpl.
  apply world_eq; try done; try set_solver. by rewrite app_nil_r.
Qed.

Lemma effect_raise {A} (e : exn) : sync_effect (@raise A e) (Raise e) ∅ ∅ ∅ ∅.
Proof. apply (effect_lift (Raise e)). Qed.

Lemma effect_emit (e : event) :
  membership_event e = true → creates e = false →
  sync_effect (emit e) (Ok tt) ∅ ∅ ∅ ∅.
Proof.
  intros He Hp w. exists [e]. split_and!; [|by repeat constructor..].
  unfold emit. f_equal. apply world_eq; try done; set_solver.
Qed.

Lemma effect_rel_add rel user :
  sync_effect (rel_add rel user) (Ok tt) ∅ ∅ ∅ {[(rel, user)]}.
Proof.
  intros w. eexists [EvRelAdd rel user _]. split_and!; [|by repeat constructor..].
  unfold rel_add, bind, get_world, emit, set_role_members; simpl. f_equal.
  apply world_eq; try done; set_solver.
Qed.

Lemma effect_rel_remove rel user :
  sync_effect (rel_remove rel user) (Ok tt) ∅ ∅ {[(rel, user)]} ∅.
Proof.
  intros w. eexists [EvRelRemove rel user _]. split_and!; [|by repeat constructor..].
  unfold rel_remove, bind, get_world, emit, set_role_members; simpl. f_equal.
  apply world_eq; try done; set_solver.
Qed.

Lemma effect_bind {A B} (m : M A) (f : A → M B) a res O1 T1 R1 A1 O2 T2 R2 A2 :
  sync_effect m (Ok a) O1 T1 R1 A1 →
  sync_effect (f a) res O2 T2 R2 A2 →
  sync_effect (bind m f) res (O1 ∪ O2) (T1 ∪ T2) (R1 ∪ R2) ((A1 ∖ R2) ∪ A2).
Proof.
  intros Hm Hf w.
  destruct (Hm w) as (tr1 & E1 & M1 & P1).
  rewrite (bind_ok _ _ _ _ _ E1).
  match goal with |- context [f a ?w1] => destruct (Hf w1) as (tr2 & E2 & M2 & P2) end.
  simpl in E2, P2.
  exists (tr1 ++ tr2)%list. split_and!.
  - rewrite E2. f_equal. apply world_eq; try done; try set_solver.
    by rewrite <- app_assoc.
  - by apply Forall_app.
  - intros HO HT. apply Forall_app. split; [apply P1; set_solver|].
    apply P2; set_solver.
Qed.

Lemma effect_bind_raise {A B} (m : M A) (f : A → M B) e O T R Ad :
  sync_effect m (Raise e) O T R Ad →
  sync_effect (bind m f) (Raise e) O T R Ad.
Proof.
  intros Hm w. destruct (Hm w) as (tr & E & H1 & H2).
  exists tr. by rewrite (bind_raise _ _ _ _ _ E).
Qed.

Lemma uniform_bind {A B} (m : M A) (f : A → M B) :
  uniform m → (∀ a, uniform (f a)) → uniform (bind m f).
Proof.
  intros (res & O & T & R & Ad & Hm) Hf. destruct res as [a|e].
  - destruct (Hf a) as (res' & O' & T' & R' & Ad' & Hfa).
    do 5 eexists. by eapply effect_bind.
  - do 5 eexists. by eapply effect_bind_raise.
Qed.

Lemma uniform_ret {A} (a : A) : uniform (ret a).
Proof. do 5 eexists. apply effect_ret. Qed.

Lemma uniform_for_each {A} (l : list A) (body : A → M unit) :
  (∀ x, uniform (body x)) → uniform (for_each l body).
Proof.
  intros Hb. induction l as [|x l IH]; simpl.
  - apply uniform_ret.
  - apply uniform_bind; [apply Hb | by intros _].
Qed.

Lemma effect_org_get_or_create {A} name (k : string * bool → M A) res O T R Ad :
  (∀ created, sync_effect (k (name, created)) res O T R Ad) →
  sync_effect (bind (Organization_get_or_create name) k) res ({[name]} ∪ O) T R Ad.
Proof.
  intros Hk w.
  unfold bind at 1, Organization_get_or_create, bind at 1, get_world.
  destruct (decide (name ∈ organizations w)) as [Hin|Hnot].
  - destruct (Hk false w) as (tr & E & H1 & H2). exists tr. split_and!; [|done|].
    + unfold ret. rewrite E. f_equal. apply world_eq; try done. set_solver.
    + intros HO HT. apply H2; set_solver.
  - unfold bind, set_organizations, emit, ret; simpl.
    match goal with |- context [k _ ?w1] =>
      destruct (Hk true w1) as (tr & E & H1 & H2) end.
    simpl in E, H2. exists (EvCreateOrg name :: tr). split_and!.
    + rewrite E. f_equal. apply world_eq; try done; [set_solver|].
      by rewrite <- app_assoc.
    + by constructor.
    + intros HO HT. set_solver.
Qed.

Lemma effect_team_get_or_create {A} name org
    (k : string * string * bool → M A) res O T R Ad :
  (∀ created, sync_effect (k (name, org, created)) res O T R Ad) →
  sync_effect (bind (Team_get_or_create name org) k) res O ({[(name, org)]} ∪ T) R Ad.
Proof.
  intros Hk w.
  unfold bind at 1, Team_get_or_create, bind at 1, get_world.
  destruct (decide ((name, org) ∈ teams w)) as [Hin|Hnot].
  - destruct (Hk false w) as (tr & E & H1 & H2). exists tr. split_and!; [|done|].
    + unfold ret. rewrite E. f_equal. apply world_eq; try done. set_solver.
    + intros HO HT. apply H2; set_solver.
  - unfold bind, set_teams, emit, ret; simpl.
    match goal with |- context [k _ ?w1] =>
      destruct (Hk true w1) as (tr & E & H1 & H2) end.
    simpl in E, H2. exists (EvCreateTeam name org :: tr). split_and!.
    + rewrite E. f_equal. apply world_eq; try done; [set_solver|].
      by rewrite <- app_assoc.
    + by constructor.
    + intros HO HT. set_solver.
Qed.

Lemma uniform_update_m2m user ldap_user rel opts remove :
  uniform (_update_m2m_from_groups user ldap_user rel opts remove).
Proof.
  unfold _update_m2m_from_groups. destruct (is_None opts); [apply uniform_ret|].
  apply uniform_bind.
  - do 5 eexists. apply effect_lift.
  - intros [|].
    + do 5 eexists. apply effect_rel_add.
    + destruct remove; [|apply uniform_ret].
      do 5 eexists. apply effect_rel_remove.
Qed.

Lemma uniform_update_organization user ldap_user org_name org_opts :
  uniform (update_organization user ldap_user org_name org_opts).
Proof.
  unfold update_organization.
  match goal with |- uniform (bind _ ?k) =>
    assert (Hk : uniform (k (org_name, true))) end.
  { simpl. apply uniform_bind; [apply uniform_update_m2m|].
    intros _. apply uniform_update_m2m. }
  destruct Hk as (res & O & T & R & Ad & Hk).
  do 5 eexists. apply effect_org_get_or_create. intros created. exact Hk.
Qed.

Lemma uniform_update_team user ldap_user team_name team_opts :
  uniform (update_team user ldap_user team_name team_opts).
Proof.
  unfold update_team.
  destruct (team_opts !! "organization") as [[| | |organization|]|];
    try (do 5 eexists; apply effect_raise); [|apply uniform_ret].
  match goal with |- uniform (bind _ ?k) =>
    assert (Hk : ∃ res O T R Ad, ∀ c : bool,
              sync_effect (k (organization, c)) res O T R Ad) end.
  { simpl.
    destruct (uniform_update_m2m user ldap_user
                (TeamMemberRole team_name organization)
                (dict_get team_opts "users" PyNone)
                (truthy (dict_get team_opts "remove" (PyBool true))))
      as (res & O & T & R & Ad & Hu).
    do 5 eexists. intros _. apply effect_team_get_or_create. intros _. exact Hu. }
  destruct Hk as (res & O & T & R & Ad & Hk).
  do 5 eexists. apply effect_org_get_or_create. exact Hk.
Qed.

Lemma uniform_update_memberships user ldap_user :
  uniform (update_memberships user ldap_user).
Proof.
  unfold update_memberships. apply uniform_bind.
  - do 5 eexists. by apply effect_emit.
  - intros _. apply uniform_bind.
    + apply uniform_for_each. intros [org_name org_opts].
      apply uniform_update_organization.
    + intros _. apply uniform_for_each. intros [team_name team_opts].
      apply uniform_update_team.
Qed.

(** *** Tidy effects: entries that touch rows apart *)

Lemma tidy_simple {A} (m : M A) res :
  sync_effect m res ∅ ∅ ∅ ∅ →
  (∀ w tr, trace (m w).2 = (trace w ++ tr)%list →
           Forall (fun e => changes_membership e = false) tr) →
  tidy_effect m res ∅ ∅ ∅ ∅.
Proof. intros Hm Ht. split_and!; [done|set_solver|]. intros w tr H _ _. eauto. Qed.

Lemma tidy_in_ret {A} F (a : A) : tidy_in F (ret a).
Proof.
  exists (Ok a), ∅, ∅, ∅, ∅. split; [|set_solver].
  apply tidy_simple; [apply effect_ret|].
  intros w tr H. simpl in H. rewrite <- (app_nil_r (trace w)) in H at 1.
  apply app_inv_head in H as <-. constructor.
Qed.

Lemma tidy_in_lift {A} F (r : result A) : tidy_in F (lift r).
Proof.
  exists r, ∅, ∅, ∅, ∅. split; [|set_solver].
  apply tidy_simple; [apply effect_lift|].
  intros w tr H. simpl in H. rewrite <- (app_nil_r (trace w)) in H at 1.
  apply app_inv_head in H as <-. constructor.
Qed.

Lemma tidy_in_emit F e :
  membership_event e = true → creates e = false → changes_membership e = false →
  tidy_in F (emit e).
Proof.
  intros H1 H2 H3. exists (Ok tt), ∅, ∅, ∅, ∅. split; [|set_solver].
  apply tidy_simple; [by apply effect_emit|].
  intros w tr H. simpl in H. apply app_inv_head in H as <-. by repeat constructor.
Qed.

Lemma tidy_rel_add rel user :
  tidy_effect (rel_add rel user) (Ok tt) ∅ ∅ ∅ {[(rel, user)]}.
Proof.
  split_and!; [apply effect_rel_add|set_solver|].
  intros w tr H Hin _. simpl in H. apply app_inv_head in H as <-.
  repeat constructor. simpl. apply bool_decide_eq_false. set_solver.
Qed.

Lemma tidy_rel_remove rel user :
  tidy_effect (rel_remove rel user) (Ok tt) ∅ ∅ {[(rel, user)]} ∅.
Proof.
  split_and!; [apply effect_rel_remove|set_solver|].
  intros w tr H _ Hnot. simpl in H. apply app_inv_head in H as <-.
  repeat constructor. simpl. apply bool_decide_eq_false. set_solver.
Qed.

Lemma tidy_bind {A B} (m : M A) (f : A → M B) a res O1 T1 R1 A1 O2 T2 R2 A2 :
  tidy_effect m (Ok a) O1 T1 R1 A1 →
  tidy_effect (f a) res O2 T2 R2 A2 →
  (R1 ∪ A1) ## (R2 ∪ A2) →
  tidy_effect (bind m f) res (O1 ∪ O2) (T1 ∪ T2) (R1 ∪ R2) ((A1 ∖ R2) ∪ A2).
Proof.
  intros (Hm & Hd1 & Hq1) (Hf & Hd2 & Hq2) Hfp. split_and!.
  - by apply (effect_bind _ _ a).
  - set_solver.
  - intros w tr Ht Hin Hout.
    destruct (Hm w) as (tr1 & E1 & _).
    rewrite (bind_ok _ _ _ _ _ E1) in Ht.
    match type of E1 with _ = (_, ?w0) => set (w1 := w0) in * end.
    destruct (Hf w1) as (tr2 & E2 & _).
    rewrite E2 in Ht. simpl in Ht. rewrite <- app_assoc in Ht.
    apply app_inv_head in Ht as <-.
    apply Forall_app. split.
    + apply (Hq1 w); [by rewrite E1|set_solver|set_solver].
    + apply (Hq2 w1); [by rewrite E2|simpl|simpl].
      * intros x Hx. destruct (decide (x ∈ R1)); set_solver.
      * set_solver.
Qed.

Lemma tidy_bind_raise {A B} (m : M A) (f : A → M B) e O T R Ad :
  tidy_effect m (Raise e) O T R Ad →
  tidy_effect (bind m f) (Raise e) O T R Ad.
Proof.
  intros (Hm & Hd & Hq). split_and!; [by apply effect_bind_raise|done|].
  intros w tr Ht. destruct (Hm w) as (tr1 & E1 & _).
  rewrite (bind_raise _ _ _ _ _ E1) in Ht. apply (Hq w). by rewrite E1.
Qed.

Lemma tidy_in_weaken {A} (F F' : role * Z → Prop) (m : M A) :
  (∀ x, F x → F' x) → tidy_in F m → tidy_in F' m.
Proof.
  intros HF (res & O & T & R & Ad & Hm & Hfp).
  exists res, O, T, R, Ad. split; [done|]. intros x Hx. by apply HF, Hfp.
Qed.

Lemma tidy_in_bind {A B} (F1 F2 : role * Z → Prop) (m : M A) (f : A → M B) :
  (∀ x, F1 x → F2 x → False) →
  tidy_in F1 m → (∀ a, tidy_in F2 (f a)) →
  tidy_in (fun x => F1 x ∨ F2 x) (bind m f).
Proof.
  intros Hdisj (res & O & T & R & Ad & Hm & Hfp) Hf. destruct res as [a|e].
  - destruct (Hf a) as (res' & O' & T' & R' & Ad' & Hfa & Hfp').
    do 5 eexists. split.
    + eapply tidy_bind; [exact Hm|exact Hfa|].
      intros x Hx Hx'. apply (Hdisj x); [by apply Hfp|by apply Hfp'].
    + intros x Hx.
      destruct (decide (x ∈ R ∪ Ad)); [left; by apply Hfp|].
      right. apply Hfp'. set_solver.
  - do 5 eexists. split; [by apply tidy_bind_raise|].
    intros x Hx. left. by apply Hfp.
Qed.

Lemma tidy_org_get_or_create {A} name (k : string * bool → M A) res O T R Ad :
  (∀ created, tidy_effect (k (name, created)) res O T R Ad) →
  tidy_effect (bind (Organization_get_or_create name) k) res ({[name]} ∪ O) T R Ad.
Proof.
  intros Hk. split_and!.
  - apply effect_org_get_or_create. intros c. apply Hk.
  - apply (Hk true).
  - intros w tr Ht Hin Hout. revert Ht.
    unfold bind at 1, Organization_get_or_create, bind at 1, get_world.
    destruct (decide (name ∈ organizations w)) as [Hex|Hnew].
    + unfold ret. intros Ht. by apply (Hk false) in Ht.
    + unfold bind, set_organizations, emit, ret; simpl.
      match goal with |- context [k _ ?w0] => set (w1 := w0) end.
      intros Ht. destruct (Hk true) as (E & _ & Hq).
      destruct (E w1) as (tr1 & E1 & _). rewrite E1 in Ht. simpl in Ht.
      rewrite <- app_assoc in Ht. apply app_inv_head in Ht as <-.
      constructor; [done|]. apply (Hq w1); [by rewrite E1|done|done].
Qed.

Lemma tidy_team_get_or_create {A} name org
    (k : string * string * bool → M A) res O T R Ad :
  (∀ created, tidy_effect (k (name, org, created)) res O T R Ad) →
  tidy_effect (bind (Team_get_or_create name org) k) res O ({[(name, org)]} ∪ T) R Ad.
Proof.
  intros Hk. split_and!.
  - apply effect_team_get_or_create. intros c. apply Hk.
  - apply (Hk true).
  - intros w tr Ht Hin Hout. revert Ht.
    unfold bind at 1, Team_get_or_create, bind at 1, get_world.
    destruct (decide ((name, org) ∈ teams w)) as [Hex|Hnew].
    + unfold ret. intros Ht. by apply (Hk false) in Ht.
    + unfold bind, set_teams, emit, ret; simpl.
      match goal with |- context [k _ ?w0] => set (w1 := w0) end.
      intros Ht. destruct (Hk true) as (E & _ & Hq).
      destruct (E w1) as (tr1 & E1 & _). rewrite E1 in Ht. simpl in Ht.
      rewrite <- app_assoc in Ht. apply app_inv_head in Ht as <-.
      constructor; [done|]. apply (Hq w1); [by rewrite E1|done|done].
Qed.

Lemma tidy_in_update_m2m user ldap_user rel opts remove :
  tidy_in (fun x => x = (rel, user))
          (_update_m2m_from_groups user ldap_user rel opts remove).
Proof.
  unfold _update_m2m_from_groups. destruct (is_None opts); [apply tidy_in_ret|].
  apply (tidy_in_weaken (fun x => False ∨ x = (rel, user))); [by intros x [|]|].
  apply tidy_in_bind; [done|apply tidy_in_lift|].
  intros [|].
  - do 5 eexists. split; [apply tidy_rel_add|set_solver].
  - destruct remove; [|apply tidy_in_ret].
    do 5 eexists. split; [apply tidy_rel_remove|set_solver].
Qed.

Lemma tidy_in_update_organization user ldap_user org_name org_opts :
  tidy_in (org_footprint user org_name)
          (update_organization user ldap_user org_name org_opts).
Proof.
  unfold update_organization.
  match goal with |- tidy_in _ (bind _ ?k) =>
    assert (Hk : tidy_in (org_footprint user org_name) (k (org_name, true))) end.
  { simpl. apply tidy_in_bind; [by intros x -> [=]|apply tidy_in_update_m2m|].
    intros _. apply tidy_in_update_m2m. }
  destruct Hk as (res & O & T & R & Ad & Hk & Hfp).
  do 5 eexists. split; [|exact Hfp].
  apply tidy_org_get_or_create. intros created. exact Hk.
Qed.

Lemma tidy_in_update_team user ldap_user team_name team_opts :
  tidy_in (team_footprint user team_name)
          (update_team user ldap_user team_name team_opts).
Proof.
  unfold update_team.
  destruct (team_opts !! "organization") as [[| | |organization|]|];
    try (apply (tidy_in_lift _ (Raise _))); [|apply tidy_in_ret].
  destruct (tidy_in_update_m2m user ldap_user
              (TeamMemberRole team_name organization)
              (dict_get team_opts "users" PyNone)
              (truthy (dict_get team_opts "remove" (PyBool true))))
    as (res & O & T & R & Ad & Hu & Hfp).
  do 5 eexists. split.
  - apply tidy_org_get_or_create. intros _. simpl.
    apply tidy_team_get_or_create. intros _. exact Hu.
  - intros x Hx. exists organization. by apply Hfp.
Qed.

Lemma tidy_in_for_each {V} (Fp : string → role * Z → Prop)
    (l : list (string * V)) (body : string * V → M unit) :
  (∀ k k' x, Fp k x → Fp k' x → k = k') →
  (∀ k v, tidy_in (Fp k) (body (k, v))) →
  NoDup l.*1 →
  tidy_in (map_footprint Fp l) (for_each l body).
Proof.
  intros Hinj Hbody. induction l as [|[k v] l IH]; intros Hnd.
  - apply tidy_in_ret.
  - apply NoDup_cons in Hnd as [Hk Hnd]. simpl.
    apply (tidy_in_weaken (fun x => Fp k x ∨ map_footprint Fp l x)).
    { intros x [Hx|(k' & Hin & Hx)]; [exists k|exists k']; set_solver. }
    apply tidy_in_bind; [|apply Hbody|intros _; by apply IH].
    intros x Hx (k' & Hin & Hx'). by rewrite (Hinj _ _ _ Hx Hx') in Hk.
Qed.

Lemma tidy_in_update_memberships user ldap_user :
  NoDup (default [] (ORGANIZATION_MAP (backend_settings ldap_user))).*1 →
  NoDup (default [] (TEAM_MAP (backend_settings ldap_user))).*1 →
  tidy_in (fun _ => True) (update_memberships user ldap_user).
Proof.
  intros Ho Ht. unfold update_memberships.
  apply (tidy_in_weaken
           (fun x => False ∨
              (map_footprint (org_footprint user)
                 (default [] (ORGANIZATION_MAP (backend_settings ldap_user))) x
               ∨ map_footprint (team_footprint user)
                   (default [] (TEAM_MAP (backend_settings ldap_user))) x)));
    [done|].
  apply tidy_in_bind; [done|by apply tidy_in_emit|]. intros _.
  apply tidy_in_bind.
  - intros x (k & _ & [-> | ->]) (k' & _ & (o & [=])).
  - apply (tidy_in_for_each (org_footprint user)
             _ (fun '(org_name, org_opts) =>
                  update_organization user ldap_user org_name org_opts)); [| |done].
    + intros k k' x [-> | ->] [[=]|[=]]; done.
    + intros k v. apply tidy_in_update_organization.
  - intros _.
    apply (tidy_in_for_each (team_footprint user)
             _ (fun '(team_name, team_opts) =>
                  update_team user ldap_user team_name team_opts)); [| |done].
    + intros k k' x (o & ->) (o' & [=]). done.
    + intros k v. apply tidy_in_update_team.
Qed.

(** A second run of a tidy computation changes no membership row. *)
Lemma tidy_rerun {A} (m : M A) res O T R Ad w w1 tr :
  tidy_effect m res O T R Ad →
  role_members w1 = role_members (m w).2 →
  trace (m w1).2 = (trace w1 ++ tr)%list →
  Forall (fun e => changes_membership e = false) tr.
Proof.
  intros (Hm & Hd & Hq) Hr Ht. destruct (Hm w) as (tr1 & E1 & _).
  rewrite E1 in Hr. simpl in Hr.
  apply (Hq w1 tr Ht); rewrite Hr; set_solver.
Qed.

Lemma on_populate_user_split user ldap_user w :
  on_populate_user user ldap_user w
  = bind (update_memberships user ldap_user)
         (fun _ => update_profile user ldap_user) w.
Proof.
  unfold on_populate_user, update_memberships, bind; simpl.
  destruct (for_each _ _ _) as [[?|e] w1]; [|done].
  by destruct (for_each _ _ _) as [[?|e] w2].
Qed.

Lemma stored_ldap_dn_insert o t r p u b tr user d :
  stored_ldap_dn (mkWorld o t r (<[user := d]> p) u b tr) user = d.
Proof. unfold stored_ldap_dn; simpl. by rewrite lookup_insert_eq. Qed.


Lemma update_profile_run user ldap_user w :
  ∃ w1, update_profile user ldap_user w = (Ok tt, w1)
        ∧ organizations w1 = organizations w ∧ teams w1 = teams w
        ∧ role_members w1 = role_members w
        ∧ stored_ldap_dn w1 user = dn ldap_user.
Proof.
  unfold update_profile, bind, get_world.
  destruct (decide (stored_ldap_dn w user ≠ dn ldap_user)) as [Hne|Heq].
  - eexists. split; [reflexivity|]. simpl. split_and!; try done.
    apply stored_ldap_dn_insert.
  - apply dec_stable in Heq. by exists w.
Qed.

Lemma update_profile_settled user ldap_user w :
  stored_ldap_dn w user = dn ldap_user →
  update_profile user ldap_user w = (Ok tt, w).
Proof.
  intros H. unfold update_profile, bind, get_world.
  by destruct (decide (stored_ldap_dn w user ≠ dn ldap_user)).
Qed.

Lemma Forall_persists tr :
  Forall (fun e => creates e = false) tr →
  Forall (fun e => changes_membership e = false) tr →
  Forall (fun e => persists e = false) tr.
Proof.
  rewrite !Forall_forall. intros H1 H2 e He. unfold persists.
  by rewrite (H1 e He), (H2 e He).
Qed.

(** The membership update, run again on the tables it has left. *)
Lemma update_memberships_rerun user ldap_user w w1 :
  organizations w1 = organizations (update_memberships user ldap_user w).2 →
  teams w1 = teams (update_memberships user ldap_user w).2 →
  role_members w1 = role_members (update_memberships user ldap_user w).2 →
  ∃ tr,
    update_memberships user ldap_user w1
    = ((update_memberships user ldap_user w).1, with_trace w1 tr)
    ∧ Forall (fun e => creates e = false) tr
    ∧ (NoDup (default [] (ORGANIZATION_MAP (backend_settings ldap_user))).*1 →
       NoDup (default [] (TEAM_MAP (backend_settings ldap_user))).*1 →
       Forall (fun e => persists e = false) tr).
Proof.
  intros Ho Ht Hr.
  destruct (uniform_update_memberships user ldap_user)
    as (res & O & T & R & Ad & Hm).
  destruct (Hm w) as (tr1 & E1 & _). rewrite E1 in Ho, Ht, Hr |- *.
  simpl in Ho, Ht, Hr.
  destruct (Hm w1) as (tr2 & E2 & _ & P2).
  assert (Hc : Forall (fun e => creates e = false) tr2).
  { apply P2; [rewrite Ho|rewrite Ht]; set_solver. }
  assert (Hrun : update_memberships user ldap_user w1 = (res, with_trace w1 tr2)).
  { rewrite E2. f_equal. unfold with_trace.
    apply world_eq; try done; [rewrite Ho|rewrite Ht|rewrite Hr]; set_solver. }
  exists tr2. split_and!; [done|done|].
  intros Hno Hnt. apply Forall_persists; [done|].
  destruct (tidy_in_update_memberships user ldap_user Hno Hnt)
    as (res' & O' & T' & R' & Ad' & Htidy & _).
  apply (tidy_rerun _ _ _ _ _ _ w w1 tr2 Htidy).
  - by rewrite Hr, E1.
  - by rewrite Hrun.
Qed.

(** C1: running [on_populate_user] a second time, with the same LDAP user
    (same DN, same group oracle, same mapping tables), gives the same
    result and leaves every table of the store as the first run left it:
    organizations, teams, role memberships and the stored LDAP DN; the
    second run only extends the trace. It inserts no organization and no
    team and saves no profile; and as the organization names and the team
    names of the mapping are keys of a dict, hence distinct, every [add]
    of the second run finds its row and every [remove] finds none: no row
    of the store is written. *)
Theorem on_populate_user_idempotent user ldap_user w :
  ∃ res w1 tr,
    on_populate_user user ldap_user w = (res, w1)
    ∧ on_populate_user user ldap_user w1 = (res, with_trace w1 tr)
    ∧ Forall (fun e => creates e = false) tr
    ∧ (NoDup (default [] (ORGANIZATION_MAP (backend_settings ldap_user))).*1 →
       NoDup (default [] (TEAM_MAP (backend_settings ldap_user))).*1 →
       Forall (fun e => persists e = false) tr).
Proof.
  setoid_rewrite on_populate_user_split.
  destruct (update_memberships user ldap_user w) as [r0 w0] eqn:E0.
  destruct r0 as [[]|e].
  - destruct (update_profile_run user ldap_user w0) as (w1 & Ep & Ho & Ht & Hr & Hdn).
    destruct (update_memberships_rerun user ldap_user w w1)
      as (tr & E2 & Hc & Hp); [by rewrite E0..|].
    rewrite E0 in E2. simpl in E2.
    exists (Ok tt), w1, tr. split_and!; [|  |done|done].
    + by rewrite (bind_ok _ _ _ _ _ E0).
    + rewrite (bind_ok _ _ _ _ _ E2). by apply update_profile_settled.
  - destruct (update_memberships_rerun user ldap_user w w0)
      as (tr & E2 & Hc & Hp); [by rewrite E0..|].
    rewrite E0 in E2. simpl in E2.
    exists (Raise e), w0, tr. split_and!; [| |done|done].
    + by rewrite (bind_raise _ _ _ _ _ E0).
    + by rewrite (bind_raise _ _ _ _ _ E2).
Qed.

Lemma on_populate_user_idempotent_witness :
  ∃ tr,
    on_populate_user 2 bob (on_populate_user 2 bob bob_world).2
    = (Ok tt, with_trace (on_populate_user 2 bob bob_world).2 tr)
    ∧ Forall (fun e => persists e = false) tr.
Proof.
  destruct (on_populate_user_idempotent 2 bob bob_world)
    as (res & w1 & tr & E1 & E2 & _ & Hp).
  exists tr.
  assert (Hres : res = Ok tt) by (apply (f_equal fst) in E1; by vm_compute in E1).
  assert (Hw : w1 = (on_populate_user 2 bob bob_world).2) by by rewrite E1.
  subst res w1. split; [exact E2|].
  apply Hp; [apply (NoDup_singleton "Engineering")|apply (NoDup_singleton "QA")].
Defined.


(** *** One call of [_update_m2m_from_groups] *)

Lemma group_loop_existsb ldap_user l b :
  group_loop ldap_user l b = b || existsb (reports_membership ldap_user) l.
Proof.
  unfold group_loop. revert b. induction l as [|g l IH]; intros b; simpl.
  - by rewrite orb_false_r.
  - rewrite IH. destruct g as [| | |s|]; simpl; try done.
    destruct (is_member_of ldap_user s), b; done.
Qed.

Lemma update_m2m_cases user ldap_user rel opts remove w :
  (∃ res, _update_m2m_from_groups user ldap_user rel opts remove w = (res, w))
  ∨ _update_m2m_from_groups user ldap_user rel opts remove w = rel_add rel user w
  ∨ _update_m2m_from_groups user ldap_user rel opts remove w = rel_remove rel user w.
Proof.
  unfold _update_m2m_from_groups. destruct (is_None opts); [left; by eexists|].
  unfold bind at 1, lift.
  destruct (should_add_of ldap_user opts) as [[|]|e]; [by right; left| |left; by eexists].
  destruct remove; [by right; right|left; by eexists].
Qed.


Lemma update_m2m_frame user ldap_user rel opts remove w x :
  x ≠ (rel, user) →
  x ∈ role_members (_update_m2m_from_groups user ldap_user rel opts remove w).2
  ↔ x ∈ role_members w.
Proof.
  intros Hx.
  destruct (update_m2m_cases user ldap_user rel opts remove w)
    as [[res ->]|[-> | ->]]; simpl; set_solver.
Qed.

Lemma update_m2m_trace user ldap_user rel opts remove w :
  ∃ tr, trace (_update_m2m_from_groups user ldap_user rel opts remove w).2
        = (trace w ++ tr)%list
        ∧ ∀ e, e ∈ tr → ∃ b, e = EvRelAdd rel user b ∨ e = EvRelRemove rel user b.
Proof.
  destruct (update_m2m_cases user ldap_user rel opts remove w)
    as [[res ->]|[-> | ->]]; simpl.
  - exists []. rewrite app_nil_r. set_solver.
  - eexists [_]. split; [done|]. set_solver.
  - eexists [_]. split; [done|]. set_solver.
Qed.

Lemma org_get_or_create_frame name w :
  ∃ created tr,
    (Organization_get_or_create name w).1 = Ok (name, created)
    ∧ role_members (Organization_get_or_create name w).2 = role_members w
    ∧ trace (Organization_get_or_create name w).2 = (trace w ++ tr)%list
    ∧ ∀ e, e ∈ tr → e = EvCreateOrg name.
Proof.
  unfold Organization_get_or_create, bind, get_world.
  destruct (decide _); simpl.
  - exists false, []. rewrite app_nil_r. set_solver.
  - exists true, [EvCreateOrg name]. set_solver.
Qed.

Lemma team_get_or_create_frame name org w :
  ∃ created tr,
    (Team_get_or_create name org w).1 = Ok (name, org, created)
    ∧ role_members (Team_get_or_create name org w).2 = role_members w
    ∧ trace (Team_get_or_create name org w).2 = (trace w ++ tr)%list
    ∧ ∀ e, e ∈ tr → e = EvCreateTeam name org.
Proof.
  unfold Team_get_or_create, bind, get_world.
  destruct (decide _); simpl.
  - exists false, []. rewrite app_nil_r. set_solver.
  - exists true, [EvCreateTeam name org]. set_solver.
Qed.

(** The flags and rules of an organization entry, named. *)
Lemma update_organization_flags user ldap_user org_name org_opts :
  update_organization user ldap_user org_name org_opts
  = (let* (org, created) := Organization_get_or_create org_name in
     _update_m2m_from_groups user ldap_user (AdminRole org)
       (dict_get org_opts "admins" PyNone) (org_remove_admins org_opts) ;;
     _update_m2m_from_groups user ldap_user (MemberRole org)
       (dict_get org_opts "users" PyNone) (org_remove_users org_opts)).
Proof. reflexivity. Qed.

(** The world between the two role updates of an organization entry. *)
Lemma update_organization_run user ldap_user org_name org_opts w :
  ∃ created w0 r1 w1,
    Organization_get_or_create org_name w = (Ok (org_name, created), w0)
    ∧ role_members w0 = role_members w
    ∧ (∃ tr0, trace w0 = (trace w ++ tr0)%list ∧ ∀ e, e ∈ tr0 → e = EvCreateOrg org_name)
    ∧ _update_m2m_from_groups user ldap_user (AdminRole org_name)
        (dict_get org_opts "admins" PyNone) (org_remove_admins org_opts) w0
      = (r1, w1)
    ∧ update_organization user ldap_user org_name org_opts w
      = match r1 with
        | Ok _ => _update_m2m_from_groups user ldap_user (MemberRole org_name)
                    (dict_get org_opts "users" PyNone) (org_remove_users org_opts) w1
        | Raise e => (Raise e, w1)
        end.
Proof.
  destruct (org_get_or_create_frame org_name w) as (created & tr & E & Hr & Ht).
  destruct (Organization_get_or_create org_name w) as [r0 w0] eqn:E0.
  simpl in E, Hr, Ht. subst r0.
  destruct (_update_m2m_from_groups user ldap_user (AdminRole org_name)
              (dict_get org_opts "admins" PyNone) (org_remove_admins org_opts) w0)
    as [r1 w1] eqn:E1.
  exists created, w0, r1, w1. split_and!; try done; [by exists tr|].
  rewrite update_organization_flags. unfold bind at 1. rewrite E0.
  unfold bind. by rewrite E1.
Qed.

Lemma update_m2m_none user ldap_user rel remove w :
  _update_m2m_from_groups user ldap_user rel PyNone remove w = (Ok tt, w).
Proof. reflexivity. Qed.

Lemma untouched_by_other user ldap_user rel rel' opts remove w w0 :
  rel' ≠ rel → untouched rel' w w0 →
  untouched rel' w (_update_m2m_from_groups user ldap_user rel opts remove w0).2.
Proof.
  intros Hne [Hm (tr0 & Ht0 & He0)]. split.
  - intros u. rewrite update_m2m_frame; [apply Hm|congruence].
  - destruct (update_m2m_trace user ldap_user rel opts remove w0) as (tr & Ht & He).
    exists (tr0 ++ tr)%list. split; [by rewrite Ht, Ht0, app_assoc|].
    intros u b. destruct (He0 u b) as [H1 H2].
    split; intros [Hin|Hin]%elem_of_app.
    + by apply H1.
    + destruct (He _ Hin) as (b' & [?|?]); congruence.
    + by apply H2.
    + destruct (He _ Hin) as (b' & [?|?]); congruence.
Qed.

Lemma untouched_by_create rel w w0 tr0 (P : event → Prop) :
  role_members w0 = role_members w →
  trace w0 = (trace w ++ tr0)%list →
  (∀ e, e ∈ tr0 → P e) →
  (∀ u b, ¬ P (EvRelAdd rel u b) ∧ ¬ P (EvRelRemove rel u b)) →
  untouched rel w w0.
Proof.
  intros Hr Ht He HP. split; [by rewrite Hr|].
  exists tr0. split; [done|]. intros u b. destruct (HP u b) as [H1 H2].
  split; intros Hin; [apply H1|apply H2]; by apply He.
Qed.

(** C2: a rule that is [None] is skipped. [_update_m2m_from_groups] with
    [opts = None] returns at once and leaves the world as it is, whatever
    the remove flag and the group oracle. So an organization entry whose
    [admins] (or [users]) rule is absent or [None] leaves the members of
    the admin (member) role as they were, with no [add] and no [remove] on
    it, and so does a team entry whose [users] rule is absent or [None]. *)
Theorem absent_rule_is_skipped user ldap_user w rel remove
    org_name org_opts team_name team_opts organization :
  _update_m2m_from_groups user ldap_user rel PyNone remove w = (Ok tt, w)
  ∧ (dict_get org_opts "admins" PyNone = PyNone →
     untouched (AdminRole org_name) w
       (update_organization user ldap_user org_name org_opts w).2)
  ∧ (dict_get org_opts "users" PyNone = PyNone →
     untouched (MemberRole org_name) w
       (update_organization user ldap_user org_name org_opts w).2)
  ∧ (team_opts !! "organization" = Some (PyStr organization) →
     dict_get team_opts "users" PyNone = PyNone →
     untouched (TeamMemberRole team_name organization) w
       (update_team user ldap_user team_name team_opts w).2).
Proof.
  split_and!; [reflexivity| | |].
  - intros Hnone.
    destruct (update_organization_run user ldap_user org_name org_opts w)
      as (created & w0 & r1 & w1 & E0 & Hr & (tr0 & Ht0 & He0) & E1 & ->).
    rewrite Hnone, update_m2m_none in E1. injection E1 as <- <-.
    apply untouched_by_other; [done|].
    apply (untouched_by_create _ _ _ tr0 (fun e => e = EvCreateOrg org_name));
      done.
  - intros Hnone.
    destruct (update_organization_run user ldap_user org_name org_opts w)
      as (created & w0 & r1 & w1 & E0 & Hr & (tr0 & Ht0 & He0) & E1 & ->).
    rewrite Hnone.
    assert (Hw1 : untouched (MemberRole org_name) w w1).
    { replace w1 with (_update_m2m_from_groups user ldap_user (AdminRole org_name)
                         (dict_get org_opts "admins" PyNone)
                         (org_remove_admins org_opts) w0).2 by by rewrite E1.
      apply untouched_by_other; [done|].
      apply (untouched_by_create _ _ _ tr0 (fun e => e = EvCreateOrg org_name));
        done. }
    by destruct r1.
  - intros Horg Hnone. unfold update_team. rewrite Horg.
    destruct (org_get_or_create_frame organization w)
      as (c0 & tr0 & E0 & Hr0 & Ht0 & He0).
    destruct (Organization_get_or_create organization w) as [r0 w0] eqn:Eq0.
    simpl in E0, Hr0, Ht0. subst r0.
    destruct (team_get_or_create_frame team_name organization w0)
      as (c1 & tr1 & E1 & Hr1 & Ht1 & He1).
    destruct (Team_get_or_create team_name organization w0) as [r1 w1] eqn:Eq1.
    simpl in E1, Hr1, Ht1. subst r1.
    unfold bind at 1. rewrite Eq0. unfold bind at 1. rewrite Eq1.
    rewrite Hnone, update_m2m_none. simpl.
    apply (untouched_by_create _ _ _ (tr0 ++ tr1)%list
             (fun e => e = EvCreateOrg organization
                       ∨ e = EvCreateTeam team_name organization)).
    + by rewrite Hr1.
    + by rewrite Ht1, Ht0, app_assoc.
    + intros e [Hin|Hin]%elem_of_app; [left; by apply He0|right; by apply He1].
    + intros u b. split; intros [|]; done.
Qed.



Lemma absent_rule_is_skipped_witness :
  untouched (AdminRole "Engineering") bob_world
    (update_organization 2 bob "Engineering" (<["users" := PyBool true]> ∅) bob_world).2
  ∧ untouched (MemberRole "Engineering") bob_world
      (update_organization 2 bob "Engineering" (<["admins" := PyBool false]> ∅) bob_world).2
  ∧ untouched (TeamMemberRole "QA" "Engineering") bob_world
      (update_team 2 bob "QA" (<["organization" := PyStr "Engineering"]> ∅) bob_world).2.
Proof.
  destruct (absent_rule_is_skipped 2 bob bob_world (AdminRole "Engineering") true
              "Engineering" (<["users" := PyBool true]> ∅) "QA" ∅ "Engineering")
    as (_ & H1 & _).
  destruct (absent_rule_is_skipped 2 bob bob_world (AdminRole "Engineering") true
              "Engineering" (<["admins" := PyBool false]> ∅) "QA" ∅ "Engineering")
    as (_ & _ & H2 & _).
  destruct (absent_rule_is_skipped 2 bob bob_world (AdminRole "Engineering") true
              "Engineering" ∅ "QA" (<["organization" := PyStr "Engineering"]> ∅)
              "Engineering")
    as (_ & _ & _ & H3).
  split_and!.
  - exact (H1 eq_refl).
  - exact (H2 eq_refl).
  - exact (H3 eq_refl eq_refl).
Defined.




(** ** The backends *)

Lemma with_trace_app w tr1 tr2 :
  with_trace (with_trace w tr1) tr2 = with_trace w (tr1 ++ tr2).
Proof. unfold with_trace; simpl. by rewrite <- app_assoc. Qed.

Lemma emit_run e w : emit e w = (Ok tt, with_trace w [e]).
Proof. reflexivity. Qed.

Lemma try_except_raise {A} (m : M A) h w e w' :
  m w = (Raise e, w') → try_except m h w = h e w'.
Proof. unfold try_except. by intros ->. Qed.

Lemma prefix_app (p s : string) :
  String.prefix p s = true ↔ ∃ rest, s = p ++ rest.
Proof.
  revert s. induction p as [|a p IH]; intros s; simpl.
  - split; [intros _; by exists s|by destruct s].
  - destruct s as [|b s]; simpl.
    + split; [done|]. by intros (rest & ?).
    + destruct (Ascii.ascii_dec a b) as [->|Hne].
      * rewrite IH. split; intros (rest & H); exists rest.
        -- by rewrite H.
        -- change (String b s = String b (p +:+ rest)) in H. congruence.
      * split; [done|]. intros (rest & H).
        change (String b s = String a (p +:+ rest)) in H. congruence.
Qed.

Section BackendProofs.
Variable OPT_NETWORK_TIMEOUT : Z.
Variable BaseLDAPSettings_init : string → gmap string pyval → LDAPSettings.
Variable django_settings : DjangoSettings.
Variable feature_enabled : string → bool.
Variable BaseLDAPBackend_authenticate : string → option string → M (option UserObj).
Variable BaseLDAPBackend_get_user : Z → M (option UserObj).
Variable BaseRADIUSBackend_authenticate : string → option string → M (option UserObj).
Variable BaseRADIUSBackend_get_user : Z → M (option UserObj).
Variable BaseSAMLAuth_authenticate : list pyval → M (option UserObj).
Variable BaseSAMLAuth_get_user : Z → M (option UserObj).
Variable TACACSClient_authenticate :
  string → Z → string → Z → string → string → Z → M bool.
Variable TAC_PLUS_AUTHEN_TYPES : gmap string Z.

Local Abbreviation settings_of := (current_settings OPT_NETWORK_TIMEOUT BaseLDAPSettings_init).
Local Abbreviation cached := (cached_world OPT_NETWORK_TIMEOUT BaseLDAPSettings_init).
Local Abbreviation get_settings := (_get_settings OPT_NETWORK_TIMEOUT BaseLDAPSettings_init).
Local Abbreviation ldap_authenticate :=
  (LDAPBackend_authenticate OPT_NETWORK_TIMEOUT BaseLDAPSettings_init
     feature_enabled BaseLDAPBackend_authenticate).
Local Abbreviation ldap_get_user :=
  (LDAPBackend_get_user OPT_NETWORK_TIMEOUT BaseLDAPSettings_init
     feature_enabled BaseLDAPBackend_get_user).
Local Abbreviation radius_authenticate :=
  (RADIUSBackend_authenticate django_settings feature_enabled
     BaseRADIUSBackend_authenticate).
Local Abbreviation radius_get_user :=
  (RADIUSBackend_get_user django_settings feature_enabled BaseRADIUSBackend_get_user).
Local Abbreviation tacacs_authenticate :=
  (TACACSPlusBackend_authenticate django_settings feature_enabled
     TACACSClient_authenticate TAC_PLUS_AUTHEN_TYPES).
Local Abbreviation tacacs_get_user :=
  (TACACSPlusBackend_get_user django_settings feature_enabled).
Local Abbreviation saml_authenticate :=
  (SAMLAuth_authenticate django_settings feature_enabled BaseSAMLAuth_authenticate).
Local Abbreviation saml_get_user :=
  (SAMLAuth_get_user django_settings feature_enabled BaseSAMLAuth_get_user).

Lemma get_settings_run w : get_settings w = (Ok (settings_of w), cached w).
Proof.
  unfold _get_settings, current_settings, cached_world, bind, get_world.
  by destruct w as [o t r p u [[s|]] tr].
Qed.

Lemma call_feature_run name w :
  call_feature_enabled feature_enabled name w
  = (Ok (feature_enabled name), with_trace w [EvFeature name]).
Proof. reflexivity. Qed.

(** A gate: the feature is looked up, and without it an error is logged. *)
Lemma gate_refused {A} name msg (k : M (option A)) w :
  feature_enabled name = false →
  (let* enabled := call_feature_enabled feature_enabled name in
   if negb enabled then emit (EvLog ERROR msg) ;; ret None else k) w
  = (Ok None, with_trace w [EvFeature name; EvLog ERROR msg]).
Proof.
  intros H. rewrite (bind_ok _ _ _ _ _ (call_feature_run name w)), H; simpl.
  rewrite (bind_ok _ _ _ _ _ (emit_run _ _)). unfold ret.
  by rewrite with_trace_app.
Qed.

Lemma gate_open {A} name msg (k : M (option A)) w :
  feature_enabled name = true →
  (let* enabled := call_feature_enabled feature_enabled name in
   if negb enabled then emit (EvLog ERROR msg) ;; ret None else k) w
  = k (with_trace w [EvFeature name]).
Proof.
  intros H. by rewrite (bind_ok _ _ _ _ _ (call_feature_run name w)), H.
Qed.

(** C6: every backend closes its gates in the same order. With its
    configuration missing, [authenticate] and [get_user] return [None] and
    nothing is done: no feature lookup, no log, no call of the base class
    or client (the LDAP backend has only read, and cached, its settings).
    With the configuration present and the feature off they return [None]
    after the feature lookup and one error log, and nothing else. *)
Theorem closed_gates w username password user_id args :
  (truthy (SERVER_URI (settings_of w)) = false →
     silent_none (ldap_authenticate username password) w (cached w)
     ∧ silent_none (ldap_get_user user_id) w (cached w))
  ∧ (truthy (SERVER_URI (settings_of w)) = true → feature_enabled "ldap" = false →
     refused (ldap_authenticate username password) "ldap"
       "Unable to authenticate, license does not support LDAP authentication"
       w (cached w)
     ∧ refused (ldap_get_user user_id) "ldap"
       "Unable to get_user, license does not support LDAP authentication"
       w (cached w))
  ∧ (truthy (RADIUS_SERVER django_settings) = false →
     silent_none (radius_authenticate username password) w w
     ∧ silent_none (radius_get_user user_id) w w)
  ∧ (truthy (RADIUS_SERVER django_settings) = true →
     feature_enabled "enterprise_auth" = false →
     refused (radius_authenticate username password) "enterprise_auth"
       "Unable to authenticate, license does not support RADIUS authentication" w w
     ∧ refused (radius_get_user user_id) "enterprise_auth"
       "Unable to get_user, license does not support RADIUS authentication" w w)
  ∧ (TACACSPLUS_HOST django_settings = "" →
     silent_none (tacacs_authenticate username password) w w
     ∧ silent_none (tacacs_get_user user_id) w w)
  ∧ (TACACSPLUS_HOST django_settings ≠ "" →
     feature_enabled "enterprise_auth" = false →
     refused (tacacs_authenticate username password) "enterprise_auth"
       "Unable to authenticate, license does not support TACACS+ authentication" w w
     ∧ refused (tacacs_get_user user_id) "enterprise_auth"
       "Unable to get user, license does not support TACACS+ authentication" w w)
  ∧ (saml_configured django_settings = false →
     silent_none (saml_authenticate args) w w
     ∧ silent_none (saml_get_user user_id) w w)
  ∧ (saml_configured django_settings = true →
     feature_enabled "enterprise_auth" = false →
     refused (saml_authenticate args) "enterprise_auth"
       "Unable to authenticate, license does not support SAML authentication" w w
     ∧ refused (saml_get_user user_id) "enterprise_auth"
       "Unable to get_user, license does not support SAML authentication" w w).
Proof.
  unfold silent_none, refused. split_and!.
  - intros H. unfold LDAPBackend_authenticate, LDAPBackend_get_user.
    by rewrite !(bind_ok _ _ _ _ _ (get_settings_run w)), H.
  - intros H Hf. unfold LDAPBackend_authenticate, LDAPBackend_get_user.
    rewrite !(bind_ok _ _ _ _ _ (get_settings_run w)), H. change (negb true) with false; cbv iota.
    by rewrite !gate_refused.
  - intros H. unfold RADIUSBackend_authenticate, RADIUSBackend_get_user.
    by rewrite H.
  - intros H Hf. unfold RADIUSBackend_authenticate, RADIUSBackend_get_user.
    rewrite H. change (negb true) with false; cbv iota. by rewrite !gate_refused.
  - intros H. unfold TACACSPlusBackend_authenticate, TACACSPlusBackend_get_user.
    by rewrite H.
  - intros H Hf. unfold TACACSPlusBackend_authenticate, TACACSPlusBackend_get_user.
    cbn [truthy]. destruct (String.eqb_spec (TACACSPLUS_HOST django_settings) "");
      [done|]. change (negb (negb false)) with false; cbv iota.
    by rewrite !gate_refused.
  - intros H. unfold SAMLAuth_authenticate, SAMLAuth_get_user. by rewrite H.
  - intros H Hf. unfold SAMLAuth_authenticate, SAMLAuth_get_user.
    rewrite H. change (negb true) with false; cbv iota. by rewrite !gate_refused.
Qed.
Lemma delegate_run {A} b method (k : M A) w :
  (emit (EvDelegate b method) ;; k) w = k (with_trace w [EvDelegate b method]).
Proof. reflexivity. Qed.

Lemma tacacs_try_run username pw ty w :
  TAC_PLUS_AUTHEN_TYPES !! TACACSPLUS_AUTH_PROTOCOL django_settings = Some ty →
  tacacs_try django_settings TACACSClient_authenticate TAC_PLUS_AUTHEN_TYPES
             username (Some pw) w
  = TACACSClient_authenticate (TACACSPLUS_HOST django_settings)
      (TACACSPLUS_PORT django_settings) (TACACSPLUS_SECRET django_settings)
      (TACACSPLUS_SESSION_TIMEOUT django_settings) username pw ty
      (with_trace w [EvDelegate TACACSPlus "authenticate"]).
Proof.
  intros H. unfold tacacs_try, dict_item. rewrite H. reflexivity.
Qed.

(** C5 (as the code has it): the LDAP and the TACACS+ backend call their
    client inside [try]: an exception it raises is logged with
    [logger.exception] and [authenticate] returns [None]. The RADIUS and
    the SAML backend call the base class outside any [try]: an exception
    it raises is the outcome of [authenticate]. *)
Theorem client_errors_by_backend w username password pw ty args e w3 :
  (truthy (SERVER_URI (settings_of w)) = true → feature_enabled "ldap" = true →
   BaseLDAPBackend_authenticate username password
     (with_trace (cached w) [EvFeature "ldap"; EvDelegate Directory "authenticate"])
   = (Raise e, w3) →
   ldap_authenticate username password w
   = (Ok None,
      with_trace w3 [EvLog EXCEPTION "Encountered an error authenticating to LDAP"]))
  ∧ (TACACSPLUS_HOST django_settings ≠ "" →
     feature_enabled "enterprise_auth" = true →
     TAC_PLUS_AUTHEN_TYPES !! TACACSPLUS_AUTH_PROTOCOL django_settings = Some ty →
     TACACSClient_authenticate (TACACSPLUS_HOST django_settings)
       (TACACSPLUS_PORT django_settings) (TACACSPLUS_SECRET django_settings)
       (TACACSPLUS_SESSION_TIMEOUT django_settings) username pw ty
       (with_trace w [EvFeature "enterprise_auth"; EvDelegate TACACSPlus "authenticate"])
     = (Raise e, w3) →
     tacacs_authenticate username (Some pw) w
     = (Ok None,
        with_trace w3
          [EvLog EXCEPTION ("TACACS+ Authentication Error: " ++ exn_message e)]))
  ∧ (truthy (RADIUS_SERVER django_settings) = true →
     feature_enabled "enterprise_auth" = true →
     BaseRADIUSBackend_authenticate username password
       (with_trace w [EvFeature "enterprise_auth"; EvDelegate RADIUS "authenticate"])
     = (Raise e, w3) →
     radius_authenticate username password w = (Raise e, w3))
  ∧ (saml_configured django_settings = true →
     feature_enabled "enterprise_auth" = true →
     BaseSAMLAuth_authenticate args
       (with_trace w [EvFeature "enterprise_auth"; EvDelegate SAML "authenticate"])
     = (Raise e, w3) →
     saml_authenticate args w = (Raise e, w3)).
Proof.
  split_and!.
  - intros H Hf Hraise. unfold LDAPBackend_authenticate.
    rewrite (bind_ok _ _ _ _ _ (get_settings_run w)), H.
    change (negb true) with false; cbv iota. rewrite (gate_open _ _ _ _ Hf).
    erewrite try_except_raise; [reflexivity|].
    by rewrite delegate_run, with_trace_app.
  - intros H Hf Hty Hraise. unfold TACACSPlusBackend_authenticate.
    cbn [truthy]. destruct (String.eqb_spec (TACACSPLUS_HOST django_settings) "");
      [done|]. change (negb (negb false)) with false; cbv iota.
    rewrite (gate_open _ _ _ _ Hf).
    assert (Htry : tacacs_try django_settings TACACSClient_authenticate
                     TAC_PLUS_AUTHEN_TYPES username (Some pw)
                     (with_trace w [EvFeature "enterprise_auth"]) = (Raise e, w3)).
    { by rewrite (tacacs_try_run _ _ _ _ Hty), with_trace_app. }
    unfold bind at 1. erewrite try_except_raise; [|by erewrite bind_raise].
    reflexivity.
  - intros H Hf Hraise. unfold RADIUSBackend_authenticate. rewrite H.
    change (negb true) with false; cbv iota. rewrite (gate_open _ _ _ _ Hf).
    by rewrite delegate_run, with_trace_app.
  - intros H Hf Hraise. unfold SAMLAuth_authenticate. rewrite H.
    change (negb true) with false; cbv iota. rewrite (gate_open _ _ _ _ Hf).
    by rewrite delegate_run, with_trace_app.
Qed.

(** C10: with the TACACS+ host configured and the feature on, [get_user]
    looks the user up in the local table: it returns the user with that
    primary key when there is one and [None] when there is none, never an
    exception. The store is left as it was, and the only event is the
    feature lookup: the TACACS+ client is not called. *)
Theorem tacacs_get_user_is_local w user_id :
  TACACSPLUS_HOST django_settings ≠ "" →
  feature_enabled "enterprise_auth" = true →
  tacacs_get_user user_id w
  = (Ok (pair user_id <$> auth_user w !! user_id),
     with_trace w [EvFeature "enterprise_auth"])
  ∧ (∀ row, auth_user w !! user_id = Some row →
       (tacacs_get_user user_id w).1 = Ok (Some (user_id, row)))
  ∧ (auth_user w !! user_id = None → (tacacs_get_user user_id w).1 = Ok None)
  ∧ (∀ e, (tacacs_get_user user_id w).1 ≠ Raise e)
  ∧ (∀ b method, EvDelegate b method ∉ [EvFeature "enterprise_auth"]).
Proof using Type.
  intros H Hf.
  assert (Hrun : tacacs_get_user user_id w
                 = (Ok (pair user_id <$> auth_user w !! user_id),
                    with_trace w [EvFeature "enterprise_auth"])).
  { unfold TACACSPlusBackend_get_user. cbn [truthy].
    destruct (String.eqb_spec (TACACSPLUS_HOST django_settings) ""); [done|].
    change (negb (negb false)) with false; cbv iota.
    rewrite (gate_open _ _ _ _ Hf).
    unfold User_get, try_except, bind, get_world, ret, raise. simpl.
    by destruct (auth_user w !! user_id). }
  rewrite Hrun. split_and!; simpl; try done.
  - by intros row ->.
  - by intros ->.
  - intros b method Hin. by apply list_elem_of_singleton in Hin.
Qed.

(** C8: the settings object is the one the base class composes, except
    that connection options without the network-timeout entry get the
    entry with value 30; an entry that is there keeps its value. Every
    other option and attribute is as composed. The default is applied by
    the constructor: the [settings] property builds the object when
    nothing is cached, and returns a cached object as it is. *)
Theorem network_timeout_default prefix defaults w :
  let base := BaseLDAPSettings_init prefix defaults in
  let s := LDAPSettings_init OPT_NETWORK_TIMEOUT BaseLDAPSettings_init prefix defaults in
  (default ∅ (CONNECTION_OPTIONS base) !! OPT_NETWORK_TIMEOUT = None →
   CONNECTION_OPTIONS s
   = Some (<[OPT_NETWORK_TIMEOUT := PyInt 30]> (default ∅ (CONNECTION_OPTIONS base)))
   ∧ default ∅ (CONNECTION_OPTIONS s) !! OPT_NETWORK_TIMEOUT = Some (PyInt 30))
  ∧ (∀ v, default ∅ (CONNECTION_OPTIONS base) !! OPT_NETWORK_TIMEOUT = Some v →
     s = base ∧ default ∅ (CONNECTION_OPTIONS s) !! OPT_NETWORK_TIMEOUT = Some v)
  ∧ (∀ k, k ≠ OPT_NETWORK_TIMEOUT →
     default ∅ (CONNECTION_OPTIONS s) !! k = default ∅ (CONNECTION_OPTIONS base) !! k)
  ∧ SERVER_URI s = SERVER_URI base
  ∧ ORGANIZATION_MAP s = ORGANIZATION_MAP base
  ∧ TEAM_MAP s = TEAM_MAP base
  ∧ (_settings (ldap_backend w) = None →
     get_settings w
     = (Ok (LDAPSettings_init OPT_NETWORK_TIMEOUT BaseLDAPSettings_init
              settings_prefix ∅), cached w)
     ∧ is_Some (default ∅ (CONNECTION_OPTIONS (settings_of w)) !! OPT_NETWORK_TIMEOUT))
  ∧ (∀ s0, _settings (ldap_backend w) = Some s0 → get_settings w = (Ok s0, w)).
Proof.
  intros base s. subst s. unfold LDAPSettings_init. fold base.
  split_and!.
  - intros H. rewrite H. simpl. split; [done|]. by rewrite lookup_insert_eq.
  - intros v H. by rewrite H.
  - intros k Hk.
    destruct (default ∅ (CONNECTION_OPTIONS base) !! OPT_NETWORK_TIMEOUT) eqn:E;
      [done|]. simpl. by rewrite lookup_insert_ne.
  - by destruct (default ∅ (CONNECTION_OPTIONS base) !! OPT_NETWORK_TIMEOUT).
  - by destruct (default ∅ (CONNECTION_OPTIONS base) !! OPT_NETWORK_TIMEOUT).
  - by destruct (default ∅ (CONNECTION_OPTIONS base) !! OPT_NETWORK_TIMEOUT).
  - intros H. rewrite get_settings_run. unfold current_settings. rewrite H.
    split; [done|]. unfold LDAPSettings_init.
    destruct (default ∅ (CONNECTION_OPTIONS (BaseLDAPSettings_init settings_prefix ∅))
                !! OPT_NETWORK_TIMEOUT) eqn:E.
    + by rewrite E.
    + simpl. by rewrite lookup_insert_eq.
  - intros s0 H. rewrite get_settings_run. unfold current_settings, cached_world.
    rewrite H. destruct w as [o t r p u [c] tr]. simpl in *. by subst c.
Qed.

(** C9: a change notification whose setting name starts with
    ["AUTH_LDAP_"] empties the settings cache of the backend, so that the
    next access builds a new settings object; for any other name, and for
    a notification without a name, the backend is left as it was. So a
    cached object is dropped if and only if the name has that prefix. *)
Theorem setting_changed_invalidates_cache (setting : option string) w :
  let name := default "" setting in
  let has_prefix := ∃ rest, name = "AUTH_LDAP_" ++ rest in
  (has_prefix →
   _on_setting_changed setting w
   = (Ok tt, mkWorld (organizations w) (teams w) (role_members w)
                     (profile_ldap_dn w) (auth_user w) (mkLDAPBackend None) (trace w))
   ∧ (get_settings (_on_setting_changed setting w).2).1
     = Ok (LDAPSettings_init OPT_NETWORK_TIMEOUT BaseLDAPSettings_init
                             settings_prefix ∅))
  ∧ (¬ has_prefix → _on_setting_changed setting w = (Ok tt, w))
  ∧ (∀ s0, _settings (ldap_backend w) = Some s0 →
     (_settings (ldap_backend (_on_setting_changed setting w).2) = None ↔ has_prefix)).
Proof.
  intros name has_prefix.
  assert (Hp : String.prefix settings_prefix name = true ↔ has_prefix)
    by apply prefix_app.
  unfold _on_setting_changed. fold name.
  destruct (String.prefix settings_prefix name) eqn:E.
  - assert (Hyes : has_prefix) by by apply Hp.
    split_and!; [| |].
    + intros _. split; [done|]. by rewrite get_settings_run.
    + intros Hno. by destruct Hno.
    + intros s0 H. by split.
  - assert (Hno : ¬ has_prefix) by (intros Hyes; by apply Hp in Hyes).
    split_and!.
    + intros Hyes. by destruct Hno.
    + done.
    + intros s0 H. unfold ret; simpl. rewrite H. by split.
Qed.
End BackendProofs.

(** ** The theorems on the small deployment *)

(** C5, as the claim has it, fails for RADIUS and SAML: with the backend
    configured and licensed and a server that does not answer, the
    exception of the base class is the outcome of [authenticate], and no
    log is written. *)
Lemma radius_saml_client_error_propagates :
  RADIUSBackend_authenticate configured_settings (fun _ => true)
    failing_authenticate "alice" (Some "pw") empty_world
  = (Raise (ClientError "timed out"),
     with_trace empty_world
       [EvFeature "enterprise_auth"; EvDelegate RADIUS "authenticate"])
  ∧ SAMLAuth_authenticate configured_settings (fun _ => true)
      failing_saml [] empty_world
    = (Raise (ClientError "timed out"),
       with_trace empty_world
         [EvFeature "enterprise_auth"; EvDelegate SAML "authenticate"])
  ∧ (RADIUSBackend_authenticate configured_settings (fun _ => true)
       failing_authenticate "alice" (Some "pw") empty_world).1 ≠ Ok None
  ∧ (SAMLAuth_authenticate configured_settings (fun _ => true)
       failing_saml [] empty_world).1 ≠ Ok None.
Proof. split_and!; [reflexivity|reflexivity|discriminate|discriminate]. Qed.

Lemma client_errors_by_backend_witness :
  LDAPBackend_authenticate python_ldap_OPT_NETWORK_TIMEOUT configured_ldap
    (fun _ => true) failing_authenticate "alice" (Some "pw") empty_world
  = (Ok None,
     with_trace
       (with_trace (cached_world python_ldap_OPT_NETWORK_TIMEOUT configured_ldap
                      empty_world)
          [EvFeature "ldap"; EvDelegate Directory "authenticate"])
       [EvLog EXCEPTION "Encountered an error authenticating to LDAP"])
  ∧ TACACSPlusBackend_authenticate configured_settings (fun _ => true)
      failing_tacacs_client tacacs_authen_types "alice" (Some "pw") empty_world
    = (Ok None,
       with_trace
         (with_trace empty_world
            [EvFeature "enterprise_auth"; EvDelegate TACACSPlus "authenticate"])
         [EvLog EXCEPTION "TACACS+ Authentication Error: timed out"])
  ∧ RADIUSBackend_authenticate configured_settings (fun _ => true)
      failing_authenticate "alice" (Some "pw") empty_world
    = (Raise (ClientError "timed out"),
       with_trace empty_world
         [EvFeature "enterprise_auth"; EvDelegate RADIUS "authenticate"])
  ∧ SAMLAuth_authenticate configured_settings (fun _ => true)
      failing_saml [] empty_world
    = (Raise (ClientError "timed out"),
       with_trace empty_world
         [EvFeature "enterprise_auth"; EvDelegate SAML "authenticate"]).
Proof.
  destruct (client_errors_by_backend python_ldap_OPT_NETWORK_TIMEOUT configured_ldap
              configured_settings (fun _ => true)
              failing_authenticate failing_authenticate failing_saml
              failing_tacacs_client tacacs_authen_types
              empty_world "alice" (Some "pw") "pw" 1 [] (ClientError "timed out")
              (with_trace (cached_world python_ldap_OPT_NETWORK_TIMEOUT configured_ldap
                             empty_world)
                 [EvFeature "ldap"; EvDelegate Directory "authenticate"]))
    as (H1 & _).
  destruct (client_errors_by_backend python_ldap_OPT_NETWORK_TIMEOUT configured_ldap
              configured_settings (fun _ => true)
              failing_authenticate failing_authenticate failing_saml
              failing_tacacs_client tacacs_authen_types
              empty_world "alice" (Some "pw") "pw" 1 [] (ClientError "timed out")
              (with_trace empty_world
                 [EvFeature "enterprise_auth"; EvDelegate TACACSPlus "authenticate"]))
    as (_ & H2 & _).
  destruct (client_errors_by_backend python_ldap_OPT_NETWORK_TIMEOUT configured_ldap
              configured_settings (fun _ => true)
              failing_authenticate failing_authenticate failing_saml
              failing_tacacs_client tacacs_authen_types
              empty_world "alice" (Some "pw") "pw" 1 [] (ClientError "timed out")
              (with_trace empty_world
                 [EvFeature "enterprise_auth"; EvDelegate RADIUS "authenticate"]))
    as (_ & _ & H3 & _).
  destruct (client_errors_by_backend python_ldap_OPT_NETWORK_TIMEOUT configured_ldap
              configured_settings (fun _ => true)
              failing_authenticate failing_authenticate failing_saml
              failing_tacacs_client tacacs_authen_types
              empty_world "alice" (Some "pw") "pw" 1 [] (ClientError "timed out")
              (with_trace empty_world
                 [EvFeature "enterprise_auth"; EvDelegate SAML "authenticate"]))
    as (_ & _ & _ & H4).
  split_and!.
  - apply H1; reflexivity.
  - apply H2; [discriminate|reflexivity|reflexivity|reflexivity].
  - apply H3; reflexivity.
  - apply H4; reflexivity.
Defined.

Lemma closed_gates_witness :
  (silent_none (LDAPBackend_authenticate python_ldap_OPT_NETWORK_TIMEOUT unconfigured_ldap
                  (fun _ => false) failing_authenticate "alice" (Some "pw"))
     empty_world
     (cached_world python_ldap_OPT_NETWORK_TIMEOUT unconfigured_ldap empty_world)
   ∧ silent_none (RADIUSBackend_get_user unconfigured_settings (fun _ => false)
                    idle_get_user 5) empty_world empty_world
   ∧ silent_none (TACACSPlusBackend_authenticate unconfigured_settings (fun _ => false)
                    failing_tacacs_client tacacs_authen_types "alice" (Some "pw"))
       empty_world empty_world
   ∧ silent_none (SAMLAuth_authenticate unconfigured_settings (fun _ => false)
                    failing_saml []) empty_world empty_world)
  ∧ (refused (LDAPBackend_get_user python_ldap_OPT_NETWORK_TIMEOUT configured_ldap
                (fun _ => false) idle_get_user 5) "ldap"
       "Unable to get_user, license does not support LDAP authentication"
       empty_world
       (cached_world python_ldap_OPT_NETWORK_TIMEOUT configured_ldap empty_world)
     ∧ refused (RADIUSBackend_authenticate configured_settings (fun _ => false)
                  failing_authenticate "alice" (Some "pw")) "enterprise_auth"
         "Unable to authenticate, license does not support RADIUS authentication"
         empty_world empty_world
     ∧ refused (TACACSPlusBackend_get_user configured_settings (fun _ => false) 5)
         "enterprise_auth"
         "Unable to get user, license does not support TACACS+ authentication"
         empty_world empty_world
     ∧ refused (SAMLAuth_get_user configured_settings (fun _ => false) idle_get_user 5)
         "enterprise_auth"
         "Unable to get_user, license does not support SAML authentication"
         empty_world empty_world).
Proof.
  destruct (closed_gates python_ldap_OPT_NETWORK_TIMEOUT unconfigured_ldap
              unconfigured_settings (fun _ => false)
              failing_authenticate idle_get_user failing_authenticate idle_get_user
              failing_saml idle_get_user failing_tacacs_client tacacs_authen_types
              empty_world "alice" (Some "pw") 5 [])
    as (U1 & _ & U2 & _ & U3 & _ & U4 & _).
  destruct (closed_gates python_ldap_OPT_NETWORK_TIMEOUT configured_ldap
              configured_settings (fun _ => false)
              failing_authenticate idle_get_user failing_authenticate idle_get_user
              failing_saml idle_get_user failing_tacacs_client tacacs_authen_types
              empty_world "alice" (Some "pw") 5 [])
    as (_ & C1 & _ & C2 & _ & C3 & _ & C4).
  split; split_and!.
  - apply U1. reflexivity.
  - apply U2. reflexivity.
  - apply U3. reflexivity.
  - apply U4. reflexivity.
  - apply C1; reflexivity.
  - apply C2; reflexivity.
  - apply C3; [discriminate|reflexivity].
  - apply C4; reflexivity.
Defined.

Lemma tacacs_get_user_is_local_witness :
  TACACSPlusBackend_get_user configured_settings (fun _ => true) 5 carol_world
  = (Ok (Some (5, mkUser "carol" false true)),
     with_trace carol_world [EvFeature "enterprise_auth"])
  ∧ TACACSPlusBackend_get_user configured_settings (fun _ => true) 6 carol_world
    = (Ok None, with_trace carol_world [EvFeature "enterprise_auth"]).
Proof.
  destruct (tacacs_get_user_is_local configured_settings (fun _ => true) carol_world 5)
    as (H5 & _); [discriminate|reflexivity|].
  destruct (tacacs_get_user_is_local configured_settings (fun _ => true) carol_world 6)
    as (H6 & _); [discriminate|reflexivity|].
  split; [exact H5|exact H6].
Defined.

Lemma network_timeout_default_witness :
  default ∅ (CONNECTION_OPTIONS
               (LDAPSettings_init python_ldap_OPT_NETWORK_TIMEOUT configured_ldap
                  "AUTH_LDAP_" ∅)) !! python_ldap_OPT_NETWORK_TIMEOUT
  = Some (PyInt 30)
  ∧ LDAPSettings_init python_ldap_OPT_NETWORK_TIMEOUT
      (fun _ _ => mkLDAPSettings (PyStr "ldap://x")
                    (Some (<[python_ldap_OPT_NETWORK_TIMEOUT := PyInt 5]> ∅)) None None)
      "AUTH_LDAP_" ∅
    = mkLDAPSettings (PyStr "ldap://x")
        (Some (<[python_ldap_OPT_NETWORK_TIMEOUT := PyInt 5]> ∅)) None None.
Proof.
  split.
  - destruct (network_timeout_default python_ldap_OPT_NETWORK_TIMEOUT configured_ldap
                "AUTH_LDAP_" ∅ empty_world) as (H & _).
    apply H. reflexivity.
  - destruct (network_timeout_default python_ldap_OPT_NETWORK_TIMEOUT
                (fun _ _ => mkLDAPSettings (PyStr "ldap://x")
                    (Some (<[python_ldap_OPT_NETWORK_TIMEOUT := PyInt 5]> ∅)) None None)
                "AUTH_LDAP_" ∅ empty_world) as (_ & H & _).
    apply (H (PyInt 5)). reflexivity.
Defined.

Lemma setting_changed_invalidates_cache_witness :
  _on_setting_changed (Some "AUTH_LDAP_SERVER_URI")
    (cached_world python_ldap_OPT_NETWORK_TIMEOUT configured_ldap empty_world)
  = (Ok tt, empty_world)
  ∧ _on_setting_changed (Some "RADIUS_SERVER")
      (cached_world python_ldap_OPT_NETWORK_TIMEOUT configured_ldap empty_world)
    = (Ok tt, cached_world python_ldap_OPT_NETWORK_TIMEOUT configured_ldap empty_world).
Proof.
  split.
  - destruct (setting_changed_invalidates_cache python_ldap_OPT_NETWORK_TIMEOUT
                configured_ldap (Some "AUTH_LDAP_SERVER_URI")
                (cached_world python_ldap_OPT_NETWORK_TIMEOUT configured_ldap empty_world))
      as (H & _).
    apply H. by exists "SERVER_URI".
  - destruct (setting_changed_invalidates_cache python_ldap_OPT_NETWORK_TIMEOUT
                configured_ldap (Some "RADIUS_SERVER")
                (cached_world python_ldap_OPT_NETWORK_TIMEOUT configured_ldap empty_world))
      as (_ & H & _).
    apply H. intros (rest & Hrest). discriminate Hrest.
Defined.

(** * Further properties of the module *)

(** ** The synchronisation: what it leaves alone *)













Lemma update_profile_frame user ldap_user w :
  tables (update_profile user ldap_user w).2
  = (organizations w, teams w, role_members w,
     profile_ldap_dn (update_profile user ldap_user w).2, auth_user w, ldap_backend w)
  ∧ ∀ u, u ≠ user →
      profile_ldap_dn (update_profile user ldap_user w).2 !! u = profile_ldap_dn w !! u.
Proof.
  unfold update_profile, bind, get_world.
  destruct (decide (stored_ldap_dn w user ≠ dn ldap_user)); simpl; [|done].
  split; [done|]. intros u Hu. by rewrite lookup_insert_ne.
Qed.


(** ** The synchronisation: what a complete run establishes *)












(** ** The synchronisation: memberships mirror the rules *)














(** ** The synchronisation: the order of the dict items *)








(** ** The synchronisation: removal switched off, rules that are no rules *)

Lemma keeps_rows_ret {A} (a : A) : keeps_rows (ret a).
Proof. by intros w. Qed.

Lemma keeps_rows_bind {A B} (m : M A) (f : A → M B) :
  keeps_rows m → (∀ a, keeps_rows (f a)) → keeps_rows (bind m f).
Proof.
  intros Hm Hf w. unfold bind. specialize (Hm w).
  destruct (m w) as [[a|e] w1]; [|done].
  specialize (Hf a w1). simpl in *. set_solver.
Qed.

Lemma keeps_rows_for_each {A} (l : list A) (body : A → M unit) :
  (∀ x, x ∈ l → keeps_rows (body x)) → keeps_rows (for_each l body).
Proof.
  induction l as [|x l IH]; intros Hb; simpl; [apply keeps_rows_ret|].
  apply keeps_rows_bind; [apply Hb; set_solver|].
  intros _. apply IH. intros y Hy. apply Hb. set_solver.
Qed.

Lemma keeps_rows_update_m2m user ldap_user rel opts :
  keeps_rows (_update_m2m_from_groups user ldap_user rel opts false).
Proof.
  intros w. unfold _update_m2m_from_groups.
  destruct (is_None opts); [done|]. unfold bind, lift.
  destruct (should_add_of ldap_user opts) as [[|]|e]; simpl; set_solver.
Qed.

Lemma keeps_rows_org_get_or_create name : keeps_rows (Organization_get_or_create name).
Proof.
  intros w. destruct (org_get_or_create_frame name w) as (c & tr & _ & -> & _). done.
Qed.

Lemma keeps_rows_team_get_or_create name org : keeps_rows (Team_get_or_create name org).
Proof.
  intros w. destruct (team_get_or_create_frame name org w) as (c & tr & _ & -> & _).
  done.
Qed.

Lemma keeps_rows_update_profile user ldap_user : keeps_rows (update_profile user ldap_user).
Proof.
  intros w. destruct (update_profile_frame user ldap_user w) as (H & _).
  by injection H as _ _ -> _ _.
Qed.

(** X7: with removal switched off in every entry (the effective
    [remove_admins] and [remove_users] of every organization entry and the
    [remove] of every team entry are false), [on_populate_user] never
    deletes a membership row, however the run ends: the rows there before
    are there after. In an organization entry a per-role flag, when given,
    decides alone, and the entry's [remove] decides for the roles without
    one. *)
Theorem removal_switched_off user ldap_user w :
  (∀ org_name org_opts,
     (org_name, org_opts) ∈ default [] (ORGANIZATION_MAP (backend_settings ldap_user)) →
     org_remove_admins org_opts = false ∧ org_remove_users org_opts = false) →
  (∀ team_name team_opts,
     (team_name, team_opts) ∈ default [] (TEAM_MAP (backend_settings ldap_user)) →
     truthy (dict_get team_opts "remove" (PyBool true)) = false) →
  role_members w ⊆ role_members (on_populate_user user ldap_user w).2
  ∧ (∀ org_opts v, org_opts !! "remove_admins" = Some v →
       org_remove_admins org_opts = truthy v)
  ∧ (∀ org_opts v, org_opts !! "remove_users" = Some v →
       org_remove_users org_opts = truthy v)
  ∧ (∀ org_opts v, org_opts !! "remove" = Some v →
       org_opts !! "remove_admins" = None → org_opts !! "remove_users" = None →
       org_remove_admins org_opts = truthy v ∧ org_remove_users org_opts = truthy v).
Proof.
  intros Horg Hteam. split_and!.
  - revert w. change (keeps_rows (on_populate_user user ldap_user)).
    unfold on_populate_user. apply keeps_rows_bind; [by intros w|]. intros _.
    apply keeps_rows_bind.
    { apply keeps_rows_for_each. intros [n o] Hin.
      destruct (Horg n o Hin) as (Ha & Hu).
      unfold update_organization. apply keeps_rows_bind;
        [apply keeps_rows_org_get_or_create|].
      intros [org created]. fold (org_remove o). fold (org_remove_admins o).
      fold (org_remove_users o). rewrite Ha, Hu.
      apply keeps_rows_bind; [apply keeps_rows_update_m2m|].
      intros _. apply keeps_rows_update_m2m. }
    intros _. apply keeps_rows_bind; [|intros _; apply keeps_rows_update_profile].
    apply keeps_rows_for_each. intros [t o] Hin. specialize (Hteam t o Hin).
    unfold update_team.
    destruct (o !! "organization") as [[| | |organization|]|];
      try apply keeps_rows_ret; try (by intros w).
    apply keeps_rows_bind; [apply keeps_rows_org_get_or_create|].
    intros [org created]. apply keeps_rows_bind;
      [apply keeps_rows_team_get_or_create|].
    intros [[team team_org] c]. rewrite Hteam. apply keeps_rows_update_m2m.
  - intros o v H. unfold org_remove_admins, dict_get at 1. by rewrite H.
  - intros o v H. unfold org_remove_users, dict_get at 1. by rewrite H.
  - intros o v H Ha Hu.
    unfold org_remove_admins, org_remove_users, org_remove, dict_get.
    by rewrite H, Ha, Hu.
Qed.

Lemma removal_switched_off_witness :
  role_members bob_world
    ⊆ role_members
        (on_populate_user 2
           (with_maps bob [("Engineering",
                            <["remove" := PyBool false]> engineering_opts)] [])
           bob_world).2.
Proof.
  apply (removal_switched_off 2
           (with_maps bob [("Engineering",
                            <["remove" := PyBool false]> engineering_opts)] [])
           bob_world).
  - intros n o Hin. apply list_elem_of_singleton in Hin. injection Hin as -> ->.
    split; reflexivity.
  - intros t o Hin. by apply elem_of_nil in Hin.
Defined.







(** X9: a list of groups is read as a set: the rule evaluates the same for
    two lists with the same strings, whatever their order, their
    repetitions and their other entries; and a list with more strings is
    true whenever the shorter one is. *)
Theorem group_list_is_a_set ldap_user (l l' : list pyval) :
  ((∀ g, PyStr g ∈ l ↔ PyStr g ∈ l') →
   should_add_of ldap_user (PyList l) = should_add_of ldap_user (PyList l'))
  ∧ ((∀ g, PyStr g ∈ l → PyStr g ∈ l') →
     should_add_of ldap_user (PyList l) = Ok true →
     should_add_of ldap_user (PyList l') = Ok true).
Proof.
  assert (Hl : ∀ k, should_add_of ldap_user (PyList k)
                    = Ok (existsb (reports_membership ldap_user) k)).
  { intros [|g k]; [done|]. unfold should_add_of. cbn [truthy negb is_True].
    by rewrite group_loop_existsb. }
  assert (Hex : ∀ k, existsb (reports_membership ldap_user) k = true
                     ↔ ∃ g, PyStr g ∈ k ∧ is_member_of ldap_user g = true).
  { intros k. rewrite existsb_exists. split.
    - intros ([| | |g|] & Hin & Hg); try done.
      exists g. split; [by apply list_elem_of_In|done].
    - intros (g & Hin & Hg). exists (PyStr g). split; [by apply list_elem_of_In|done]. }
  rewrite !Hl. split.
  - intros Hsame. f_equal. apply eq_true_iff_eq. rewrite !Hex.
    split; intros (g & Hin & Hg); exists g; split; try done; by apply Hsame.
  - intros Hsub [= H]. f_equal. apply Hex. apply Hex in H as (g & Hin & Hg).
    exists g. split; [by apply Hsub|done].
Qed.

Lemma group_list_is_a_set_witness :
  should_add_of alice (PyList [PyStr "cn=ops,dc=x"; PyNone; PyStr "cn=admins,dc=x"])
  = should_add_of alice (PyList [PyStr "cn=admins,dc=x"; PyStr "cn=ops,dc=x";
                                 PyStr "cn=admins,dc=x"]).
Proof.
  apply (group_list_is_a_set alice).
  intros g. rewrite !list_elem_of_In. simpl. split.
  - intros [H|[H|[H|[]]]]; [right; left; exact H|discriminate H|left; exact H].
  - intros [H|[H|[H|[]]]];
      [right; right; left; exact H|left; exact H|right; right; left; exact H].
Defined.

(** ** The backends: the user table *)

Lemma find_username_Some users name pk row :
  find_username users name = Some (pk, row) →
  users !! pk = Some row ∧ username row = name.
Proof.
  unfold find_username. intros H. apply head_Some_elem_of in H.
  apply list_elem_of_filter in H as [Hp Hin].
  apply elem_of_map_to_list in Hin. split; [done|].
  simpl in Hp. by apply bool_decide_unpack in Hp.
Qed.

Lemma find_username_None users name pk row :
  find_username users name = None → users !! pk = Some row → username row ≠ name.
Proof.
  unfold find_username. intros H Hrow Hname. apply head_None in H.
  apply (filter_nil_not_elem_of _ _ (pk, row)) in H.
  - apply H. by apply elem_of_map_to_list.
  - simpl. by apply bool_decide_pack.
Qed.

Lemma next_pk_above (users : gmap Z User) k :
  is_Some (users !! k) → (k < next_pk users)%Z.
Proof.
  unfold next_pk. revert k.
  apply (map_fold_weak_ind
           (fun r (m : gmap Z User) => ∀ k, is_Some (m !! k) → (k < Z.succ r)%Z)).
  - intros k [x Hx]. by rewrite lookup_empty in Hx.
  - intros i x m r Hi IH k Hk. destruct (decide (k = i)) as [->|Hne]; [lia|].
    rewrite lookup_insert_ne in Hk by done. specialize (IH k Hk). lia.
Qed.

Lemma next_pk_fresh (users : gmap Z User) : users !! next_pk users = None.
Proof.
  destruct (users !! next_pk users) eqn:E; [|done].
  assert (next_pk users < next_pk users)%Z by (apply next_pk_above; by eexists).
  lia.
Qed.

(** What [_get_or_set_user] does, by whether the username is taken. *)
Lemma get_or_set_user_found name pw pk row w :
  find_username (auth_user w) name = Some (pk, row) →
  _get_or_set_user name (Some pw) w
  = (Ok (pk, set_unusable row),
     mkWorld (organizations w) (teams w) (role_members w) (profile_ldap_dn w)
             (<[pk := set_unusable row]> (auth_user w)) (ldap_backend w)
             (trace w ++ [EvUserSave pk])).
Proof.
  intros H. unfold _get_or_set_user, User_get_or_create, bind at 1 2, get_world.
  rewrite H. reflexivity.
Qed.

Lemma get_or_set_user_new name pw w :
  find_username (auth_user w) name = None →
  _get_or_set_user name (Some pw) w
  = (Ok (next_pk (auth_user w), mkUser name false true),
     mkWorld (organizations w) (teams w) (role_members w) (profile_ldap_dn w)
             (<[next_pk (auth_user w) := mkUser name false true]> (auth_user w))
             (ldap_backend w)
             (trace w ++ [EvCreateUser (next_pk (auth_user w)) name;
                          EvLog DEBUG ("Created TACACS+ user " ++ name);
                          EvUserSave (next_pk (auth_user w))])).
Proof.
  intros H. unfold _get_or_set_user, User_get_or_create, bind at 1 2, get_world.
  rewrite H. unfold set_unusable_password_and_save, bind, get_world, set_auth_user,
    emit, ret. simpl. f_equal. apply world_eq; try done.
  - by rewrite insert_insert_eq.
  - by rewrite <- !app_assoc.
Qed.

Lemma unique_usernames_update users pk row row' :
  users !! pk = Some row → username row' = username row →
  unique_usernames users → unique_usernames (<[pk := row']> users).
Proof.
  intros Hrow Hname Hu k1 k2 r1 r2 H1 H2 Hn.
  assert (Hold : ∀ k r, <[pk := row']> users !! k = Some r →
            ∃ r', users !! k = Some r' ∧ username r' = username r).
  { intros k r. destruct (decide (k = pk)) as [->|Hne].
    - rewrite lookup_insert_eq. intros [= <-]. by exists row.
    - rewrite lookup_insert_ne by done. intros H. by exists r. }
  destruct (Hold _ _ H1) as (r1' & H1' & Hn1).
  destruct (Hold _ _ H2) as (r2' & H2' & Hn2).
  apply (Hu k1 k2 r1' r2' H1' H2'). congruence.
Qed.

Lemma unique_usernames_insert users pk row :
  users !! pk = None → (∀ k r, users !! k = Some r → username r ≠ username row) →
  unique_usernames users → unique_usernames (<[pk := row]> users).
Proof.
  intros Hfresh Hnew Hu k1 k2 r1 r2 H1 H2 Hn.
  destruct (decide (k1 = pk)) as [->|Hne1]; destruct (decide (k2 = pk)) as [->|Hne2];
    try done.
  - rewrite lookup_insert_eq in H1. rewrite lookup_insert_ne in H2 by done.
    injection H1 as <-. by destruct (Hnew _ _ H2).
  - rewrite lookup_insert_eq in H2. rewrite lookup_insert_ne in H1 by done.
    injection H2 as <-. by destruct (Hnew _ _ H1).
  - rewrite lookup_insert_ne in H1, H2 by done. by apply (Hu k1 k2 r1 r2).
Qed.

(** The outcome of [_get_or_set_user] with a password, on a table with
    unique usernames. *)
Lemma get_or_set_user_run name pw w :
  unique_usernames (auth_user w) →
  ∃ pk row w',
    _get_or_set_user name (Some pw) w = (Ok (pk, row), w')
    ∧ set_unusable row = row ∧ username row = name
    ∧ auth_user w' = <[pk := row]> (auth_user w)
    ∧ tables w' = (organizations w, teams w, role_members w, profile_ldap_dn w,
                   auth_user w', ldap_backend w)
    ∧ (∀ row0, auth_user w !! pk = Some row0 →
         is_superuser row = is_superuser row0
         ∧ trace w' = (trace w ++ [EvUserSave pk])%list)
    ∧ (auth_user w !! pk = None →
         is_superuser row = false
         ∧ (∀ k r, auth_user w !! k = Some r → username r ≠ name)
         ∧ trace w' = (trace w ++ [EvCreateUser pk name;
                                   EvLog DEBUG ("Created TACACS+ user " ++ name);
                                   EvUserSave pk])%list)
    ∧ unique_usernames (auth_user w').
Proof.
  intros Hu.
  destruct (find_username (auth_user w) name) as [[pk row]|] eqn:E.
  - destruct (find_username_Some _ _ _ _ E) as (Hrow & Hname).
    rewrite (get_or_set_user_found _ _ _ _ _ E).
    eexists pk, (set_unusable row), _. split; [reflexivity|]. simpl.
    split_and!; try done.
    + intros row0 H0. rewrite Hrow in H0. by injection H0 as <-.
    + intros Hnone. by rewrite Hrow in Hnone.
    + by apply (unique_usernames_update _ _ row).
  - rewrite (get_or_set_user_new _ _ _ E).
    eexists _, _, _. split; [reflexivity|]. simpl.
    pose proof (next_pk_fresh (auth_user w)) as Hfresh.
    split_and!; try done.
    + intros row0 H0. by rewrite Hfresh in H0.
    + intros _. split_and!; [done| |done].
      intros k r Hr. by apply (find_username_None _ _ _ _ E Hr).
    + apply unique_usernames_insert; [done| |done].
      intros k r Hr. by apply (find_username_None _ _ _ _ E Hr).
Qed.

(** X10: on a user table with unique usernames, [_get_or_set_user] with a
    password returns a user with the given username whose password is
    unusable, and that is its row in the table afterwards. A user that was
    there keeps its primary key and its superuser flag and is only saved;
    a user that was missing gets a primary key no row had, is no
    superuser, and its creation is logged at debug level. No other row and
    no other table is touched, usernames stay unique, and a second call
    finds the same user and leaves the table as it is. *)
Theorem get_or_set_user_provisions name pw w :
  unique_usernames (auth_user w) →
  ∃ pk row w',
    _get_or_set_user name (Some pw) w = (Ok (pk, row), w')
    ∧ username row = name ∧ unusable_password row = true
    ∧ auth_user w' !! pk = Some row
    ∧ (∀ k, k ≠ pk → auth_user w' !! k = auth_user w !! k)
    ∧ tables w' = (organizations w, teams w, role_members w, profile_ldap_dn w,
                   auth_user w', ldap_backend w)
    ∧ (∀ row0, auth_user w !! pk = Some row0 →
         is_superuser row = is_superuser row0
         ∧ trace w' = (trace w ++ [EvUserSave pk])%list)
    ∧ (auth_user w !! pk = None →
         is_superuser row = false
         ∧ (∀ k r, auth_user w !! k = Some r → username r ≠ name)
         ∧ trace w' = (trace w ++ [EvCreateUser pk name;
                                   EvLog DEBUG ("Created TACACS+ user " ++ name);
                                   EvUserSave pk])%list)
    ∧ unique_usernames (auth_user w')
    ∧ ∃ w'', _get_or_set_user name (Some pw) w' = (Ok (pk, row), w'')
             ∧ auth_user w'' = auth_user w'.
Proof.
  intros Hu.
  destruct (get_or_set_user_run name pw w Hu)
    as (pk & row & w' & E & Hset & Hname & Htab & Hother & Hold & Hnew & Hu').
  exists pk, row, w'. split_and!; try done.
  - by rewrite <- Hset.
  - by rewrite Htab, lookup_insert_eq.
  - intros k Hk. by rewrite Htab, lookup_insert_ne.
  - destruct (get_or_set_user_run name pw w' Hu')
      as (pk2 & row2 & w'' & E2 & Hset2 & Hname2 & Htab2 & _ & Hold2 & Hnew2 & _).
    assert (Hrow : auth_user w' !! pk = Some row)
      by by rewrite Htab, lookup_insert_eq.
    destruct (auth_user w' !! pk2) as [row0|] eqn:E0.
    + assert (Hrow2 : auth_user w'' !! pk2 = Some row2)
        by by rewrite Htab2, lookup_insert_eq.
      assert (pk2 = pk).
      { destruct (find_username (auth_user w') name) as [[pk3 row3]|] eqn:Ef.
        - rewrite (get_or_set_user_found _ _ _ _ _ Ef) in E2.
          injection E2 as <- _ _.
          destruct (find_username_Some _ _ _ _ Ef) as (Hr3 & Hn3).
          apply (Hu' pk3 pk row3 row Hr3 Hrow). congruence.
        - by destruct (find_username_None _ _ _ _ Ef Hrow). }
      subst pk2. rewrite Hrow in E0. injection E0 as <-.
      assert (row2 = row).
      { destruct (find_username (auth_user w') name) as [[pk3 row3]|] eqn:Ef.
        - rewrite (get_or_set_user_found _ _ _ _ _ Ef) in E2.
          injection E2 as -> <- _.
          destruct (find_username_Some _ _ _ _ Ef) as (Hr3 & _).
          rewrite Hrow in Hr3. injection Hr3 as <-. done.
        - by destruct (find_username_None _ _ _ _ Ef Hrow). }
      subst row2. exists w''. split; [done|].
      rewrite Htab2. by apply insert_id.
    + destruct (Hnew2 eq_refl) as (_ & Hno & _). by destruct (Hno pk row Hrow).
Qed.

Lemma get_or_set_user_provisions_witness :
  ∃ pk row w',
    _get_or_set_user "dave" (Some "pw") carol_world = (Ok (pk, row), w')
    ∧ username row = "dave" ∧ unusable_password row = true
    ∧ auth_user w' !! pk = Some row ∧ is_superuser row = false
    ∧ unique_usernames (auth_user w').
Proof.
  destruct (get_or_set_user_provisions "dave" "pw" carol_world)
    as (pk & row & w' & E & Hn & Hp & Hrow & Hother & _ & _ & Hnew & Hu & _).
  - intros k1 k2 r1 r2 H1 H2 _.
    change (auth_user carol_world)
      with (<[5%Z := mkUser "carol" false true]> (∅ : gmap Z User)) in H1, H2.
    destruct (decide (k1 = 5%Z)) as [->|Hne1];
      [|by rewrite (lookup_insert_ne _ 5%Z k1) in H1 by done].
    destruct (decide (k2 = 5%Z)) as [->|Hne2]; [done|].
    by rewrite (lookup_insert_ne _ 5%Z k2) in H2 by done.
  - exists pk, row, w'. split_and!; try done.
    assert (Hpk : pk = 6%Z).
    { apply (f_equal fst) in E. vm_compute in E. congruence. }
    subst pk. destruct Hnew as (H & _); [reflexivity|exact H].
Defined.

(** ** The backends: open gates, the paths of TACACS+, the settings cache *)

Section MoreBackendProofs.
Variable OPT_NETWORK_TIMEOUT : Z.
Variable BaseLDAPSettings_init : string → gmap string pyval → LDAPSettings.
Variable django_settings : DjangoSettings.
Variable feature_enabled : string → bool.
Variable BaseLDAPBackend_authenticate : string → option string → M (option UserObj).
Variable BaseLDAPBackend_get_user : Z → M (option UserObj).
Variable BaseRADIUSBackend_authenticate : string → option string → M (option UserObj).
Variable BaseRADIUSBackend_get_user : Z → M (option UserObj).
Variable BaseSAMLAuth_authenticate : list pyval → M (option UserObj).
Variable BaseSAMLAuth_get_user : Z → M (option UserObj).
Variable TACACSClient_authenticate :
  string → Z → string → Z → string → string → Z → M bool.
Variable TAC_PLUS_AUTHEN_TYPES : gmap string Z.

Local Abbreviation settings_of := (current_settings OPT_NETWORK_TIMEOUT BaseLDAPSettings_init).
Local Abbreviation cached := (cached_world OPT_NETWORK_TIMEOUT BaseLDAPSettings_init).
Local Abbreviation get_settings := (_get_settings OPT_NETWORK_TIMEOUT BaseLDAPSettings_init).
Local Abbreviation ldap_authenticate :=
  (LDAPBackend_authenticate OPT_NETWORK_TIMEOUT BaseLDAPSettings_init
     feature_enabled BaseLDAPBackend_authenticate).
Local Abbreviation ldap_get_user :=
  (LDAPBackend_get_user OPT_NETWORK_TIMEOUT BaseLDAPSettings_init
     feature_enabled BaseLDAPBackend_get_user).
Local Abbreviation radius_authenticate :=
  (RADIUSBackend_authenticate django_settings feature_enabled
     BaseRADIUSBackend_authenticate).
Local Abbreviation radius_get_user :=
  (RADIUSBackend_get_user django_settings feature_enabled BaseRADIUSBackend_get_user).
Local Abbreviation tacacs_authenticate :=
  (TACACSPlusBackend_authenticate django_settings feature_enabled
     TACACSClient_authenticate TAC_PLUS_AUTHEN_TYPES).
Local Abbreviation saml_authenticate :=
  (SAMLAuth_authenticate django_settings feature_enabled BaseSAMLAuth_authenticate).
Local Abbreviation saml_get_user :=
  (SAMLAuth_get_user django_settings feature_enabled BaseSAMLAuth_get_user).

(** X11: with the configuration present and the feature on, a backend that
    delegates adds nothing of its own: [get_user] of the LDAP backend and
    both methods of the RADIUS and SAML backends are the method of the
    base class, run after the feature lookup, with its result, its
    exceptions and its effects; [authenticate] of the LDAP backend returns
    what the base class returns when that raises nothing. *)
Theorem open_gates_delegate w username password user_id args :
  (truthy (SERVER_URI (settings_of w)) = true → feature_enabled "ldap" = true →
   ldap_get_user user_id w
   = BaseLDAPBackend_get_user user_id
       (with_trace (cached w) [EvFeature "ldap"; EvDelegate Directory "get_user"])
   ∧ ∀ r w3,
       BaseLDAPBackend_authenticate username password
         (with_trace (cached w) [EvFeature "ldap"; EvDelegate Directory "authenticate"])
       = (Ok r, w3) →
       ldap_authenticate username password w = (Ok r, w3))
  ∧ (truthy (RADIUS_SERVER django_settings) = true →
     feature_enabled "enterprise_auth" = true →
     radius_authenticate username password w
     = BaseRADIUSBackend_authenticate username password
         (with_trace w [EvFeature "enterprise_auth"; EvDelegate RADIUS "authenticate"])
     ∧ radius_get_user user_id w
       = BaseRADIUSBackend_get_user user_id
           (with_trace w [EvFeature "enterprise_auth"; EvDelegate RADIUS "get_user"]))
  ∧ (saml_configured django_settings = true →
     feature_enabled "enterprise_auth" = true →
     saml_authenticate args w
     = BaseSAMLAuth_authenticate args
         (with_trace w [EvFeature "enterprise_auth"; EvDelegate SAML "authenticate"])
     ∧ saml_get_user user_id w
       = BaseSAMLAuth_get_user user_id
           (with_trace w [EvFeature "enterprise_auth"; EvDelegate SAML "get_user"])).
Proof.
  split_and!.
  - intros H Hf. split.
    + unfold LDAPBackend_get_user.
      rewrite (bind_ok _ _ _ _ _ (get_settings_run _ _ w)), H.
      change (negb true) with false; cbv iota.
      rewrite (gate_open _ _ _ _ _ Hf). by rewrite delegate_run, with_trace_app.
    + intros r w3 Hbase. unfold LDAPBackend_authenticate.
      rewrite (bind_ok _ _ _ _ _ (get_settings_run _ _ w)), H.
      change (negb true) with false; cbv iota.
      rewrite (gate_open _ _ _ _ _ Hf). unfold try_except.
      rewrite delegate_run, with_trace_app. cbn [app]. by rewrite Hbase.
  - intros H Hf. unfold RADIUSBackend_authenticate, RADIUSBackend_get_user.
    rewrite H. change (negb true) with false; cbv iota.
    rewrite !(gate_open _ _ _ _ _ Hf). by rewrite !delegate_run, !with_trace_app.
  - intros H Hf. unfold SAMLAuth_authenticate, SAMLAuth_get_user.
    rewrite H. change (negb true) with false; cbv iota.
    rewrite !(gate_open _ _ _ _ _ Hf). by rewrite !delegate_run, !with_trace_app.
Qed.

Lemma tacacs_open w username password :
  TACACSPLUS_HOST django_settings ≠ "" →
  feature_enabled "enterprise_auth" = true →
  tacacs_authenticate username password w
  = (let* auth :=
       try_except
         (let* valid := tacacs_try django_settings TACACSClient_authenticate
                          TAC_PLUS_AUTHEN_TYPES username password in
          ret (Some valid))
         (fun e =>
            emit (EvLog EXCEPTION ("TACACS+ Authentication Error: " ++ exn_message e)) ;;
            ret None) in
     match auth with
     | None => ret None
     | Some valid =>
         if (valid : bool) then
           let* user := _get_or_set_user username password in ret (Some user)
         else ret None
     end) (with_trace w [EvFeature "enterprise_auth"]).
Proof.
  intros H Hf. unfold TACACSPlusBackend_authenticate. cbn [truthy].
  destruct (String.eqb_spec (TACACSPLUS_HOST django_settings) ""); [done|].
  change (negb (negb false)) with false; cbv iota.
  by rewrite (gate_open _ _ _ _ _ Hf).
Qed.


(** X13: the verdict of the TACACS+ client decides. With the host
    configured, the feature on and the protocol known, a reply that is
    not valid gives [None] and leaves the world as the client left it:
    nothing is logged and no user is created. A valid reply gives the
    local user with that username, created when missing, its password
    unusable; on a user table with unique usernames that never fails. *)
Theorem tacacs_verdict w username pw ty valid w3 :
  TACACSPLUS_HOST django_settings ≠ "" →
  feature_enabled "enterprise_auth" = true →
  TAC_PLUS_AUTHEN_TYPES !! TACACSPLUS_AUTH_PROTOCOL django_settings = Some ty →
  TACACSClient_authenticate (TACACSPLUS_HOST django_settings)
    (TACACSPLUS_PORT django_settings) (TACACSPLUS_SECRET django_settings)
    (TACACSPLUS_SESSION_TIMEOUT django_settings) username pw ty
    (with_trace w [EvFeature "enterprise_auth"; EvDelegate TACACSPlus "authenticate"])
  = (Ok valid, w3) →
  (valid = false → tacacs_authenticate username (Some pw) w = (Ok None, w3))
  ∧ (valid = true → unique_usernames (auth_user w3) →
     ∃ pk row w4,
       tacacs_authenticate username (Some pw) w = (Ok (Some (pk, row)), w4)
       ∧ _get_or_set_user username (Some pw) w3 = (Ok (pk, row), w4)
       ∧ auth_user w4 !! pk = Some row
       ∧ unusable_password row = true
       ∧ (∀ row0, auth_user w3 !! pk = Some row0 →
            is_superuser row = is_superuser row0)
       ∧ (auth_user w3 !! pk = None → is_superuser row = false)).
Proof.
  intros H Hf Hty Hclient. rewrite (tacacs_open _ _ _ H Hf).
  assert (Htry : tacacs_try django_settings TACACSClient_authenticate
                   TAC_PLUS_AUTHEN_TYPES username (Some pw)
                   (with_trace w [EvFeature "enterprise_auth"]) = (Ok valid, w3)).
  { by rewrite (tacacs_try_run _ _ _ _ _ _ _ Hty), with_trace_app. }
  assert (Hauth : try_except
            (let* valid := tacacs_try django_settings TACACSClient_authenticate
                             TAC_PLUS_AUTHEN_TYPES username (Some pw) in
             ret (Some valid))
            (fun e =>
               emit (EvLog EXCEPTION ("TACACS+ Authentication Error: "
                                      ++ exn_message e)) ;;
               ret None)
            (with_trace w [EvFeature "enterprise_auth"]) = (Ok (Some valid), w3)).
  { unfold try_except. by rewrite (bind_ok _ _ _ _ _ Htry). }
  rewrite (bind_ok _ _ _ _ _ Hauth). split.
  - by intros ->.
  - intros -> Hu.
    destruct (get_or_set_user_run username pw w3 Hu)
      as (pk & row & w4 & E & Hset & Hname & Htab & _ & Hold & Hnew & _).
    exists pk, row, w4. rewrite (bind_ok _ _ _ _ _ E).
    split_and!; try done.
    + by rewrite Htab, lookup_insert_eq.
    + by rewrite <- Hset.
    + intros row0 H0. by apply Hold.
    + intros H0. by apply Hnew.
Qed.

End MoreBackendProofs.

Lemma open_gates_delegate_witness :
  LDAPBackend_authenticate python_ldap_OPT_NETWORK_TIMEOUT configured_ldap
    (fun _ => true) carol_authenticate "carol" (Some "pw") carol_world
  = (Ok (Some (5%Z, mkUser "carol" false true)),
     with_trace (cached_world python_ldap_OPT_NETWORK_TIMEOUT configured_ldap carol_world)
       [EvFeature "ldap"; EvDelegate Directory "authenticate"])
  ∧ RADIUSBackend_get_user configured_settings (fun _ => true) idle_get_user 5 carol_world
    = (Ok None,
       with_trace carol_world [EvFeature "enterprise_auth"; EvDelegate RADIUS "get_user"])
  ∧ SAMLAuth_authenticate configured_settings (fun _ => true) carol_saml [] carol_world
    = (Ok (Some (5%Z, mkUser "carol" false true)),
       with_trace carol_world [EvFeature "enterprise_auth"; EvDelegate SAML "authenticate"]).
Proof.
  destruct (open_gates_delegate python_ldap_OPT_NETWORK_TIMEOUT configured_ldap
              configured_settings (fun _ => true)
              carol_authenticate idle_get_user carol_authenticate idle_get_user
              carol_saml idle_get_user carol_world "carol" (Some "pw") 5%Z [])
    as (H1 & H2 & H3).
  split_and!.
  - destruct H1 as (_ & H1); [reflexivity|reflexivity|]. apply H1. reflexivity.
  - destruct H2 as (_ & H2); [reflexivity|reflexivity|]. exact H2.
  - destruct H3 as (H3 & _); [reflexivity|reflexivity|]. exact H3.
Defined.


Lemma tacacs_verdict_witness :
  TACACSPlusBackend_authenticate configured_settings (fun _ => true)
    rejecting_tacacs_client tacacs_authen_types "carol" (Some "pw") carol_world
  = (Ok None,
     with_trace carol_world
       [EvFeature "enterprise_auth"; EvDelegate TACACSPlus "authenticate"])
  ∧ ∃ pk row w4,
      TACACSPlusBackend_authenticate configured_settings (fun _ => true)
        accepting_tacacs_client tacacs_authen_types "carol" (Some "pw") carol_world
      = (Ok (Some (pk, row)), w4)
      ∧ auth_user w4 !! pk = Some row ∧ unusable_password row = true.
Proof.
  split.
  - destruct (tacacs_verdict configured_settings (fun _ => true)
                rejecting_tacacs_client tacacs_authen_types carol_world "carol" "pw"
                1%Z false
                (with_trace carol_world
                   [EvFeature "enterprise_auth"; EvDelegate TACACSPlus "authenticate"]))
      as (H & _); [discriminate|reflexivity|reflexivity|reflexivity|].
    apply H. reflexivity.
  - destruct (tacacs_verdict configured_settings (fun _ => true)
                accepting_tacacs_client tacacs_authen_types carol_world "carol" "pw"
                1%Z true
                (with_trace carol_world
                   [EvFeature "enterprise_auth"; EvDelegate TACACSPlus "authenticate"]))
      as (_ & H); [discriminate|reflexivity|reflexivity|reflexivity|].
    destruct H as (pk & row & w4 & E & _ & Hrow & Hp & _); [reflexivity| |].
    + intros k1 k2 r1 r2 H1 H2 _.
      change (auth_user (with_trace carol_world
                [EvFeature "enterprise_auth"; EvDelegate TACACSPlus "authenticate"]))
        with (<[5%Z := mkUser "carol" false true]> (∅ : gmap Z User)) in H1, H2.
      destruct (decide (k1 = 5%Z)) as [->|Hne1];
        [|by rewrite (lookup_insert_ne _ 5%Z k1) in H1 by done].
      destruct (decide (k2 = 5%Z)) as [->|Hne2]; [done|].
      by rewrite (lookup_insert_ne _ 5%Z k2) in H2 by done.
    + by exists pk, row, w4.
Defined.

(** ** [RADIUSBackend.get_django_user] *)

(** X15: [get_django_user] writes to the user table only when it is given
    a password. Without one it returns the user with that username, or,
    when there is none, a user object that is not saved (it has no primary
    key): the world is left as it was. With a password the user is saved
    with an unusable password: a user that was there keeps its key and its
    superuser flag, a user that was missing is inserted under a key no row
    had and is no superuser; no other row is touched. *)
Theorem get_django_user_saves_with_password name pw w :
  (∃ user, RADIUSBackend_get_django_user name None w = (Ok user, w)
           ∧ (∀ pk row, find_username (auth_user w) name = Some (pk, row) →
                user = (Some pk, row))
           ∧ (find_username (auth_user w) name = None →
                user = (None, mkUser name false false)))
  ∧ ∃ pk row w',
      RADIUSBackend_get_django_user name (Some pw) w = (Ok (Some pk, row), w')
      ∧ username row = name ∧ unusable_password row = true
      ∧ auth_user w' = <[pk := row]> (auth_user w)
      ∧ (∀ row0, auth_user w !! pk = Some row0 →
           is_superuser row = is_superuser row0
           ∧ trace w' = (trace w ++ [EvUserSave pk])%list)
      ∧ (auth_user w !! pk = None →
           is_superuser row = false
           ∧ (∀ k r, auth_user w !! k = Some r → username r ≠ name)
           ∧ trace w' = (trace w ++ [EvCreateUser pk name])%list).
Proof.
  unfold RADIUSBackend_get_django_user, User_get_by_username, User_save.
  unfold try_except, bind, get_world, set_auth_user, emit, ret, raise.
  destruct (find_username (auth_user w) name) as [[pk row]|] eqn:E; simpl.
  - destruct (find_username_Some _ _ _ _ E) as (Hrow & Hname). split.
    + eexists. split; [reflexivity|]. split; [by intros ? ? [= <- <-]|done].
    + exists pk, (set_unusable row), (mkWorld (organizations w) (teams w)
        (role_members w) (profile_ldap_dn w) (<[pk := set_unusable row]> (auth_user w))
        (ldap_backend w) (trace w ++ [EvUserSave pk])).
      split_and!; try done.
      * intros row0 H0. rewrite Hrow in H0. by injection H0 as <-.
      * intros Hnone. by rewrite Hrow in Hnone.
  - pose proof (next_pk_fresh (auth_user w)) as Hfresh. split.
    + eexists. split; [reflexivity|]. split; [done|done].
    + eexists (next_pk (auth_user w)), (mkUser name false true), _.
      split; [reflexivity|]. simpl. split_and!; try done.
      * intros row0 H0. by rewrite Hfresh in H0.
      * intros _. split_and!; [done| |done].
        intros k r Hr. by apply (find_username_None _ _ _ _ E Hr).
Qed.

(** ** The SAML identity provider *)

Section SAMLProofs.
Variable OID_USERID : string.
Variable unicode : pyval → string.

(** X16: [get_attr] reads the first value of one attribute: the one named
    by the provider's configuration under [conf_key] when there is such
    an entry (the default name is then not looked at), the default one
    otherwise. It returns [None] exactly when the attribute is missing or
    its first value is [None], and it logs, one warning, exactly when it
    returns [None] for one of the four user details; an attribute that is
    there with no value at all is an [IndexError]. *)
Theorem get_attr_first_value self attributes conf_key default_attribute :
  let key := default default_attribute (conf self !! conf_key) in
  (∀ k other, conf self !! conf_key = Some k →
     get_attr unicode self attributes conf_key default_attribute
     = get_attr unicode self attributes conf_key other)
  ∧ (conf self !! conf_key = None → key = default_attribute)
  ∧ (attributes !! key = Some (PyList []) →
     get_attr unicode self attributes conf_key default_attribute = inl AttrIndexError)
  ∧ (∀ v rest, attributes !! key = Some (PyList (v :: rest)) → v ≠ PyNone →
     get_attr unicode self attributes conf_key default_attribute
     = inr (Some (unicode v), []))
  ∧ (∀ value logged,
       get_attr unicode self attributes conf_key default_attribute
       = inr (value, logged) →
       (value = None ↔
          attributes !! key = None
          ∨ ∃ v, attributes !! key = Some v ∧ py_first v = inr PyNone)
       ∧ (logged = [EvLog WARNING (get_attr_warning self conf_key key)]
          ∨ logged = [])
       ∧ (logged ≠ [] ↔ value = None ∧ conf_key ∈ warned_keys)).
Proof.
  intros key. split_and!.
  - intros k other Hk. unfold get_attr. by rewrite Hk.
  - intros Hnone. unfold key. by rewrite Hnone.
  - intros H. unfold get_attr. fold key. by rewrite H.
  - intros v rest H Hv. unfold get_attr. fold key. rewrite H. simpl.
    destruct v; try done; by rewrite andb_false_r.
  - intros value logged. unfold get_attr. fold key.
    destruct (attributes !! key) as [v|] eqn:E.
    + destruct (py_first v) as [e|first] eqn:Ef; [done|].
      intros [= <- <-]. split_and!.
      * split.
        -- intros Hnone. right. exists v. split; [done|].
           destruct first; try done.
        -- intros [?|(v' & [= <-] & Hf)]; [done|]. rewrite Ef in Hf.
           by injection Hf as ->.
      * destruct (bool_decide _ && is_None first); [by left|by right].
      * destruct (bool_decide_reflect (conf_key ∈ warned_keys));
          destruct first; simpl; split; try done; try (by intros []).
    + intros [= <- <-]. simpl. split_and!.
      * split; [by left|done].
      * rewrite andb_true_r. destruct (bool_decide _); [by left|by right].
      * rewrite andb_true_r.
        destruct (bool_decide_reflect (conf_key ∈ warned_keys)); split;
          try done; by intros [].
Qed.

(** X17: the permanent user id is the value of one attribute: the one the
    provider's configuration names under [attr_user_permanent_id], or
    [OID_USERID]. A scalar value is the id itself, and it is the same id
    as when the value comes as a list holding it first; a missing
    attribute is a [KeyError] for that name, an empty list an
    [IndexError]. A provider is built by [get_idp] with the configuration
    of its name in [ENABLED_IDPS], and a name that is not there is a
    [KeyError]. *)
Theorem permanent_id_scalar_or_first self attributes idps name :
  let key := default OID_USERID (conf self !! "attr_user_permanent_id") in
  (attributes !! key = None →
   get_user_permanent_id OID_USERID self attributes = inl (AttrKeyError key))
  ∧ (∀ s rest,
       get_user_permanent_id OID_USERID self (<[key := PyStr s]> attributes)
       = inr (PyStr s)
       ∧ get_user_permanent_id OID_USERID self
           (<[key := PyList (PyStr s :: rest)]> attributes)
         = inr (PyStr s))
  ∧ (attributes !! key = Some (PyList []) →
     get_user_permanent_id OID_USERID self attributes = inl AttrIndexError)
  ∧ (∀ idp_config k, idps !! name = Some idp_config →
       idp_config !! "attr_user_permanent_id" = Some k →
       ∃ idp, get_idp idps name = inr idp ∧ idp_name idp = name
              ∧ get_user_permanent_id OID_USERID idp attributes
                = get_user_permanent_id "" (mkIdP name idp_config) attributes
              ∧ (attributes !! k = None →
                 get_user_permanent_id OID_USERID idp attributes
                 = inl (AttrKeyError k)))
  ∧ (idps !! name = None → get_idp idps name = inl (AttrKeyError name)).
Proof.
  intros key. unfold get_user_permanent_id, get_idp. fold key. split_and!.
  - by intros ->.
  - intros s rest. by rewrite !lookup_insert_eq.
  - by intros ->.
  - intros idp_config k Hidp Hk. rewrite Hidp. eexists. split; [reflexivity|].
    simpl. rewrite Hk. simpl. split_and!; [done|done|]. by intros ->.
  - by intros ->.
Qed.
End SAMLProofs.

(** ** [LDAPSettings.defaults] *)

Lemma python_dict_app {V} (l1 l2 : list (string * V)) :
  python_dict (l1 ++ l2) = python_dict l2 ∪ python_dict l1.
Proof. unfold python_dict. by rewrite reverse_app, list_to_map_app. Qed.

Lemma python_dict_items {V} (m : gmap string V) : python_dict (map_to_list m) = m.
Proof.
  unfold python_dict. rewrite <- (list_to_map_to_list m) at 2.
  apply list_to_map_proper.
  - rewrite fmap_reverse.
    rewrite reverse_Permutation. apply NoDup_fst_map_to_list.
  - apply reverse_Permutation.
Qed.

(** X18: the defaults of the settings class are the defaults of the base
    class with [ORGANIZATION_MAP] and [TEAM_MAP] set to the empty dict: the
    two keys are there whatever the base class has under them, and every
    other default of the base class is kept. In a [dict] built from a list
    of items the last item of a key is the one that stays. *)
Theorem defaults_add_the_two_maps {V} (base_defaults : gmap string V) (empty_dict : V) :
  LDAPSettings_defaults base_defaults empty_dict !! "ORGANIZATION_MAP" = Some empty_dict
  ∧ LDAPSettings_defaults base_defaults empty_dict !! "TEAM_MAP" = Some empty_dict
  ∧ (∀ k, k ≠ "ORGANIZATION_MAP" → k ≠ "TEAM_MAP" →
       LDAPSettings_defaults base_defaults empty_dict !! k = base_defaults !! k)
  ∧ (∀ (items : list (string * V)) k v, python_dict (items ++ [(k, v)]) !! k = Some v).
Proof.
  unfold LDAPSettings_defaults. rewrite python_dict_app, !python_dict_items.
  split_and!.
  - apply lookup_union_Some_l. by rewrite lookup_insert_eq.
  - apply lookup_union_Some_l. rewrite lookup_insert_ne by done.
    by rewrite lookup_insert_eq.
  - intros k H1 H2. apply lookup_union_r.
    rewrite !lookup_insert_ne by done. apply lookup_empty.
  - intros items k v. rewrite python_dict_app. apply lookup_union_Some_l.
    unfold python_dict. simpl. by rewrite lookup_insert_eq.
Qed.

(** ** The further properties at concrete inputs *)

Lemma get_django_user_saves_with_password_witness :
  RADIUSBackend_get_django_user "dave" None carol_world
  = (Ok (None, mkUser "dave" false false), carol_world)
  ∧ ∃ row w',
      RADIUSBackend_get_django_user "carol" (Some "pw") carol_world
      = (Ok (Some 5%Z, row), w')
      ∧ auth_user w' = <[5%Z := row]> (auth_user carol_world)
      ∧ trace w' = [EvUserSave 5%Z].
Proof.
  split.
  - destruct (get_django_user_saves_with_password "dave" "pw" carol_world)
      as ((user & E & _ & Hnone) & _).
    rewrite E. f_equal. f_equal. apply Hnone. vm_compute. reflexivity.
  - destruct (get_django_user_saves_with_password "carol" "pw" carol_world)
      as (_ & pk & row & w' & E & _ & _ & Hrows & Hold & Hnew).
    destruct (decide (pk = 5%Z)) as [->|Hne].
    + exists row, w'. split; [exact E|]. split; [exact Hrows|].
      destruct (Hold (mkUser "carol" false true)) as (_ & Htr); [reflexivity|exact Htr].
    + exfalso. destruct Hnew as (_ & Hfree & _).
      * change (auth_user carol_world)
          with (<[5%Z := mkUser "carol" false true]> (∅ : gmap Z User)).
        by rewrite lookup_insert_ne by done.
      * apply (Hfree 5%Z (mkUser "carol" false true)); reflexivity.
Defined.

Lemma get_attr_first_value_witness :
  get_attr example_unicode okta example_attributes "attr_email" "email"
  = inr (Some "alice@example.com", [])
  ∧ get_attr example_unicode okta example_attributes "attr_groups" "groups"
    = inl AttrIndexError.
Proof.
  split.
  - pose proof (get_attr_first_value example_unicode okta example_attributes
                  "attr_email" "email") as H.
    cbv zeta in H. destruct H as (_ & _ & _ & H & _).
    apply (H (PyStr "alice@example.com") [PyStr "a@example.com"]);
      [vm_compute; reflexivity|discriminate].
  - pose proof (get_attr_first_value example_unicode okta example_attributes
                  "attr_groups" "groups") as H.
    cbv zeta in H. destruct H as (_ & _ & H & _).
    apply H. vm_compute. reflexivity.
Defined.

Lemma permanent_id_scalar_or_first_witness :
  get_user_permanent_id "urn:oid:0.9.2342.19200300.100.1.1" okta
    (<["groups" := PyList []]> ∅)
  = inl (AttrKeyError "urn:oid:0.9.2342.19200300.100.1.1")
  ∧ get_idp example_idps "saml" = inl (AttrKeyError "saml").
Proof.
  pose proof (permanent_id_scalar_or_first "urn:oid:0.9.2342.19200300.100.1.1" okta
                (<["groups" := PyList []]> ∅) example_idps "saml") as H.
  cbv zeta in H. destruct H as (H1 & _ & _ & _ & H5). split.
  - apply H1. vm_compute. reflexivity.
  - apply H5. vm_compute. reflexivity.
Defined.

Lemma defaults_add_the_two_maps_witness :
  LDAPSettings_defaults
    (<["ORGANIZATION_MAP" := 1%Z]> (<["SERVER_URI" := 2%Z]> ∅)) 0%Z !! "SERVER_URI"
  = Some 2%Z.
Proof.
  destruct (defaults_add_the_two_maps
              (<["ORGANIZATION_MAP" := 1%Z]> (<["SERVER_URI" := 2%Z]> ∅)) 0%Z)
    as (_ & _ & H & _).
  rewrite H by discriminate. vm_compute. reflexivity.
Defined.
